(** * dm-clustering.ipynb: the notebook's own glue code, embedded and verified

    The notebook delegates clustering, scoring, vectorising and embedding to
    scikit-learn, SciPy, spaCy and requests.  What it contributes itself is
    string cleaning and splitting, column slicing, the construction of the
    word-embedding dictionary and of the sentence matrix, the sweep over
    cluster counts and the loops that print cluster membership.  Those parts
    are translated here cell by cell; library routines appear as parameters
    of the sections that use them.

    Conventions.
    - A Python [str] is the list of its code points ([N]).
    - A float is modelled by the rational it denotes ([Q]); [nan] is a
      separate constructor where the code can produce it.
    - A raised exception is the [Raise] constructor of [result]. *)

From Stdlib Require Import QArith.
From stdpp Require Import gmap list strings sorting.

Open Scope Z_scope.
Open Scope nat_scope.

(** ** Python strings *)

Module Py.

Abbreviation pychar := N (only parsing).
Abbreviation pystr := (list N) (only parsing).

(** Literals: an ASCII Rocq string read as a Python [str]. *)
Definition u (s : string) : pystr :=
  (fun a => Ascii.N_of_ascii a) <$> String.list_ascii_of_string s.

Definition NL : pychar := 10%N.
Definition DOT : pychar := 46%N.
Definition SPACE : pychar := 32%N.
Definition COMMA : pychar := 44%N.
Definition LPAREN : pychar := 40%N.
Definition RPAREN : pychar := 41%N.

(** [str.isspace] on one character: the ASCII table of CPython followed by
    the Unicode white-space code points. *)
Definition isspace (c : pychar) : bool :=
  ((9 <=? c) && (c <=? 13) || (28 <=? c) && (c <=? 32)
   || (c =? 133) || (c =? 160) || (c =? 5760)
   || (8192 <=? c) && (c <=? 8202)
   || (c =? 8232) || (c =? 8233) || (c =? 8239) || (c =? 8287)
   || (c =? 12288))%N.

(** [''.join(parts)] *)
Definition concat_str (parts : list pystr) : pystr := mjoin parts.

(** [s.replace(old, new)] for a one-character [old]. *)
Definition replace (old : pychar) (new : pystr) (s : pystr) : pystr :=
  s ≫= (fun c => if decide (c = old) then new else [c]).

(** [s.split(sep)] for a one-character [sep]: never empty, keeps empty
    fields. *)
Fixpoint split_sep (sep : pychar) (s : pystr) : list pystr :=
  match s with
  | [] => [[]]
  | c :: s' =>
      if decide (c = sep) then [] :: split_sep sep s'
      else match split_sep sep s' with
           | [] => [[c]]
           | field :: fields => (c :: field) :: fields
           end
  end.


(** [s.split()]: fields are maximal runs of non-space characters. [cur]
    is the field being read, last character first. *)
Fixpoint split_ws_from (cur : pystr) (s : pystr) : list pystr :=
  match s with
  | [] => match cur with [] => [] | _ => [reverse cur] end
  | c :: s' =>
      if isspace c then
        match cur with
        | [] => split_ws_from [] s'
        | _ => reverse cur :: split_ws_from [] s'
        end
      else split_ws_from (c :: cur) s'
  end.

Definition split (s : pystr) : list pystr := split_ws_from [] s.

(** Python slice bounds: a negative bound counts from the end, and both
    bounds are clamped to [0, len]. *)
Definition slice_bound (len : nat) (i : Z) : nat :=
  if (i <? 0)%Z then Z.to_nat (Z.max 0 (i + Z.of_nat len))
  else Nat.min (Z.to_nat i) len.

(** [l[start:stop]] *)
Definition slice {A} (start stop : Z) (l : list A) : list A :=
  let a := slice_bound (length l) start in
  let b := slice_bound (length l) stop in
  take (b - a) (drop a l).

(** [l[:stop]] *)
Definition slice_to {A} (stop : Z) (l : list A) : list A :=
  take (slice_bound (length l) stop) l.

End Py.

(** ** Exceptions *)

Inductive exn :=
  | ValueError (msg : string)
  | IndexError
  | LibraryFault (tag : string).

Inductive result (A : Type) :=
  | Ok (a : A)
  | Raise (e : exn).
Arguments Ok {A} a.
Arguments Raise {A} e.

Definition rbind {A B} (r : result A) (k : A -> result B) : result B :=
  match r with
  | Ok a => k a
  | Raise e => Raise e
  end.

(** [[f(x) for x in xs]] where [f] may raise: the first exception ends the
    comprehension. *)
Fixpoint rmap {A B} (f : A -> result B) (xs : list A) : result (list B) :=
  match xs with
  | [] => Ok []
  | x :: xs' =>
      rbind (f x) (fun y => rbind (rmap f xs') (fun ys => Ok (y :: ys)))
  end.

(** ** Cells 24 and 26: from the scraped paragraphs to the phrases *)

(** [raw_text = ''.join([paragraph.text for paragraph in page])] *)
Definition raw_text_of (page : list Py.pystr) : Py.pystr := Py.concat_str page.

(** [raw_text.replace('\n','')] *)
Definition strip_newlines (raw_text : Py.pystr) : Py.pystr :=
  Py.replace Py.NL [] raw_text.

(** [phrases = raw_text.replace('\n','').split('.')] *)
Definition phrases_of (raw_text : Py.pystr) : list Py.pystr :=
  Py.split_sep Py.DOT (strip_newlines raw_text).

Example phrases_example :
  phrases_of (raw_text_of [Py.u "Ab.
c"; Py.u ".d."]) = [Py.u "Ab"; Py.u "c"; Py.u "d"; Py.u ""].
Proof. reflexivity. Qed.

Example split_example :
  Py.split (Py.u "  the  cat sat ") = [Py.u "the"; Py.u "cat"; Py.u "sat"].
Proof. reflexivity. Qed.

Lemma split_sep_nonempty sep s : Py.split_sep sep s <> [].
Proof.
  destruct s as [|c s]; simpl; [done|].
  case_decide; [done|]. by destruct (Py.split_sep sep s).
Qed.






(** ** Cells 3 and 5: the loaded table and its numeric matrix *)

(** A [pandas.DataFrame] with positional access only: the column labels and
    the records, one list of cells per record. *)
Record DataFrame (A : Type) := mkDataFrame {
  columns : list string;
  values : list (list A)
}.
Arguments mkDataFrame {A} columns values.
Arguments columns {A} d.
Arguments values {A} d.

(** Every record has one cell per column. *)
Definition rectangular {A} (df : DataFrame A) : Prop :=
  Forall (fun record => length record = length (columns df)) (values df).

(** [df.iloc[:, start:stop]] *)
Definition iloc_columns {A} (start stop : Z) (df : DataFrame A) : DataFrame A :=
  {| columns := Py.slice start stop (columns df);
     values := Py.slice start stop <$> values df |}.

(** [DataFrame.to_numpy()] *)
Definition to_numpy {A} (df : DataFrame A) : list (list A) := values df.

(** [ndf = df.iloc[:, 1:-1].to_numpy()] *)
Definition ndf_of {A} (df : DataFrame A) : list (list A) :=
  to_numpy (iloc_columns 1 (-1) df).

Definition zoo_sample : DataFrame Z :=
  mkDataFrame ["name"; "hair"; "feathers"; "eggs"; "type"]
    [ [100; 1; 0; 0; 7]; [101; 0; 1; 1; 8]; [102; 0; 0; 1; 9] ]%Z.

Example ndf_of_zoo_sample :
  ndf_of zoo_sample = [ [1; 0; 0]; [0; 1; 1]; [0; 0; 1] ]%Z.
Proof. reflexivity. Qed.

Example ndf_of_two_columns :
  ndf_of (mkDataFrame ["name"; "type"] [ [100; 7]; [101; 8] ]%Z) = [ []; [] ].
Proof. reflexivity. Qed.

Lemma slice_1_m1 {A} (l : list A) :
  Py.slice 1 (-1) l = take (length l - 2) (drop 1 l).
Proof.
  unfold Py.slice, Py.slice_bound. simpl.
  destruct l as [|x [|y l]]; [done..|].
  f_equal. cbn [length]. lia.
Qed.

(** C4. The matrix given to the hierarchical clustering has one row per
    record of the table, and row [i] holds the cells of record [i] in columns
    1 to second-to-last, in order: the first and the last column are gone. *)
Theorem ndf_drops_first_and_last_column {A} (df : DataFrame A) :
  rectangular df ->
  length (ndf_of df) = length (values df)
  /\ Forall2 (fun record out =>
       length out = length (columns df) - 2
       /\ Forall (fun j => out !! j = record !! S j)
            (seq 0 (length (columns df) - 2)))
     (values df) (ndf_of df).
Proof.
  intros Hrect. unfold ndf_of, to_numpy, iloc_columns. cbn [values columns].
  split; [by rewrite length_fmap|].
  apply Forall2_fmap_r, Forall_Forall2_diag.
  eapply Forall_impl; [exact Hrect|]. intros record Hlen. cbv beta in *.
  unfold compose. rewrite slice_1_m1, Hlen. split.
  - rewrite length_take, length_drop. lia.
  - apply Forall_forall. intros j Hj. apply elem_of_seq in Hj.
    rewrite lookup_take_lt by lia. by rewrite lookup_drop.
Qed.

Lemma ndf_drops_first_and_last_column_witness :
  rectangular zoo_sample
  /\ length (ndf_of zoo_sample) = 3
  /\ Forall2 (fun record out =>
       length out = 3
       /\ Forall (fun j => out !! j = record !! S j) [0; 1; 2])
     (values zoo_sample) (ndf_of zoo_sample).
Proof.
  assert (Hrect : rectangular zoo_sample) by (repeat constructor).
  split; [exact Hrect|].
  exact (ndf_drops_first_and_last_column zoo_sample Hrect).
Defined.

(** ** NumPy on the shapes the notebook uses *)

Abbreviation vec := (list Q) (only parsing).

(** [np.any(v)]: some component is not zero. *)
Definition np_any (v : vec) : bool :=
  existsb (fun x => negb (Qeq_bool x 0)) v.

(** What [np.mean(vs, axis=0)] returns for a list of vectors: the 0-d [nan]
    of an empty list (NumPy only warns), or a vector. *)
Inductive ndarray :=
  | Nan0
  | Arr1 (v : vec).

Definition vec_add (a b : vec) : vec := zip_with Qplus a b.

(** [np.mean(vs, axis=0)]: component-wise sum divided by the number of
    vectors, in lowest terms. Vectors of different lengths do not form an
    array. *)
Definition np_mean_axis0 (vs : list vec) : result ndarray :=
  match vs with
  | [] => Ok Nan0
  | v :: rest =>
      if forallb (fun w => length w =? length v) rest then
        Ok (Arr1 ((fun s => Qred (s / inject_Z (Z.of_nat (length vs))))
                    <$> foldl vec_add v rest))
      else Raise (ValueError "inhomogeneous shape")
  end.

(** An entry of a float matrix. *)
Inductive entry :=
  | nan
  | fin (x : Q).

(** [np.atleast_2d(a)[0]]: the single row a 0-d or 1-d array becomes. *)
Definition atleast_2d (a : ndarray) : list entry :=
  match a with
  | Nan0 => [nan]
  | Arr1 v => fin <$> v
  end.

(** [np.vstack(arrs)]: needs one array at least and rows of one width. *)
Definition np_vstack (arrs : list ndarray) : result (list (list entry)) :=
  match arrs with
  | [] => Raise (ValueError "need at least one array to concatenate")
  | a :: rest =>
      if forallb (fun b => length (atleast_2d b) =? length (atleast_2d a)) rest
      then Ok (atleast_2d <$> arrs)
      else Raise (ValueError "all the input array dimensions except for the concatenation axis must match exactly")
  end.

Example np_mean_two :
  np_mean_axis0 [[2; 0]; [4; 1]]%Q = Ok (Arr1 [3; 1 # 2]%Q).
Proof. reflexivity. Qed.

(** ** Cells 31, 32 and 34: word dictionary and sentence matrix *)

(** [str.lower] on ASCII text. *)
Definition lower_ascii (s : Py.pystr) : Py.pystr :=
  (fun c => if ((65 <=? c) && (c <=? 90))%N then (c + 32)%N else c) <$> s.

(** [set(l)] iterated in the order [ws]: Python fixes no order. *)
Definition iterates_set (ws l : list Py.pystr) : Prop :=
  NoDup ws /\ Forall (fun w => w ∈ l) ws /\ Forall (fun w => w ∈ ws) l.

Section Embedding.

(** [str.lower], and [nlp(word).vector] of the loaded spaCy pipeline. *)
Variable lower : Py.pystr -> Py.pystr.
Variable nlp_vector : Py.pystr -> vec.

(** Cell 31: [raw_text.replace(',', ' ').replace('(', ' ').replace(')', ' ')
    .replace('\n','').replace('.',' .')] *)
Definition spaced_text (raw_text : Py.pystr) : Py.pystr :=
  Py.replace Py.DOT [Py.SPACE; Py.DOT]
    (Py.replace Py.NL []
      (Py.replace Py.RPAREN [Py.SPACE]
        (Py.replace Py.LPAREN [Py.SPACE]
          (Py.replace Py.COMMA [Py.SPACE] raw_text)))).

(** One round of the dict comprehension of cell 32: the filter, then the
    key and the value, then the store (a later word with the same key
    replaces the value). *)
Definition words_step (words : gmap Py.pystr vec) (word : Py.pystr)
    : gmap Py.pystr vec :=
  if np_any (nlp_vector word) then <[lower word := nlp_vector word]> words
  else words.

(** [words = {word.lower(): nlp(word).vector for word in ws
             if np.any(nlp(word).vector)}] *)
Definition words_from (ws : list Py.pystr) : gmap Py.pystr vec :=
  foldl words_step ∅ ws.

(** Cell 34, the inner comprehension
    [[words[w] for w in phrase if w in words]]: [phrase] is a [str], so [w]
    runs over its characters, each a one-character [str]. *)
Definition mean_operands (words : gmap Py.pystr vec) (phrase : Py.pystr)
    : list vec :=
  phrase ≫= (fun c => match words !! [c] with Some v => [v] | None => [] end).

(** [np.mean([words[w] for w in phrase if w in words], axis=0)] *)
Definition sentence_row (words : gmap Py.pystr vec) (phrase : Py.pystr)
    : result ndarray :=
  np_mean_axis0 (mean_operands words phrase).

(** [len(phrase.split()) >= 5] *)
Definition long_enough (phrase : Py.pystr) : bool :=
  5 <=? length (Py.split phrase).

(** The outer comprehension of cell 34. *)
Fixpoint sentence_rows (words : gmap Py.pystr vec) (phrases : list Py.pystr)
    : result (list ndarray) :=
  match phrases with
  | [] => Ok []
  | phrase :: rest =>
      if long_enough phrase then
        rbind (sentence_row words phrase) (fun row =>
        rbind (sentence_rows words rest) (fun rows => Ok (row :: rows)))
      else sentence_rows words rest
  end.

(** [X = np.vstack([...])] *)
Definition sentence_matrix (words : gmap Py.pystr vec) (phrases : list Py.pystr)
    : result (list (list entry)) :=
  rbind (sentence_rows words phrases) np_vstack.

(** Markdown of cell 30: the embedding of a sentence is the average of the
    word vectors of each word appearing in the sentence. *)
Definition documented_operands (words : gmap Py.pystr vec) (phrase : Py.pystr)
    : list vec :=
  Py.split phrase ≫=
    (fun w => match words !! w with Some v => [v] | None => [] end).

Definition documented_row (words : gmap Py.pystr vec) (phrase : Py.pystr)
    : result ndarray :=
  np_mean_axis0 (documented_operands words phrase).

(** *** The dictionary *)

Lemma words_from_snoc ws word :
  words_from (ws ++ [word]) = words_step (words_from ws) word.
Proof. unfold words_from. by rewrite foldl_app. Qed.

Lemma words_from_lookup ws k v :
  words_from ws !! k = Some v ->
  exists word, word ∈ ws /\ k = lower word /\ v = nlp_vector word
               /\ np_any v = true.
Proof.
  revert k v. induction ws as [|word ws IH] using rev_ind; intros k v Hk.
  - unfold words_from in Hk. simpl in Hk. by rewrite lookup_empty in Hk.
  - rewrite words_from_snoc in Hk. unfold words_step in Hk.
    destruct (np_any (nlp_vector word)) eqn:Hany.
    + destruct (decide (lower word = k)) as [<-|Hne].
      * rewrite lookup_insert_eq in Hk. injection Hk as <-.
        exists word. split; [|done]. apply elem_of_app. right. by left.
      * rewrite lookup_insert_ne in Hk by done.
        destruct (IH _ _ Hk) as (w & Hw & Hrest). exists w.
        split; [|done]. apply elem_of_app. by left.
    + destruct (IH _ _ Hk) as (w & Hw & Hrest). exists w.
      split; [|done]. apply elem_of_app. by left.
Qed.

Lemma words_from_key ws word :
  word ∈ ws -> np_any (nlp_vector word) = true ->
  is_Some (words_from ws !! lower word).
Proof.
  induction ws as [|w ws IH] using rev_ind; intros Hin Hany.
  - by apply not_elem_of_nil in Hin.
  - rewrite words_from_snoc. unfold words_step.
    apply elem_of_app in Hin as [Hin|Hin%list_elem_of_singleton].
    + destruct (np_any (nlp_vector w)); [|by apply IH].
      destruct (decide (lower w = lower word)) as [->|Hne].
      * rewrite lookup_insert_eq. by eexists.
      * rewrite lookup_insert_ne by done. by apply IH.
    + subst w. rewrite Hany, lookup_insert_eq. by eexists.
Qed.

End Embedding.

Arguments spaced_text raw_text : assert.

Global Instance iterates_set_dec ws l : Decision (iterates_set ws l).
Proof. unfold iterates_set. apply _. Defined.

(** *** Small inputs *)

(** A pipeline whose vectors depend on the case of the word. *)
Definition cased_nlp (word : Py.pystr) : vec :=
  if decide (word = Py.u "King") then [1; 0]%Q
  else if decide (word = Py.u "king") then [0; 1]%Q
  else if decide (word = Py.u "queen") then [1; 1]%Q
  else [0; 0]%Q.

Definition royal_text : Py.pystr := Py.u "The king (the King), the queen.".

Definition royal_order : list Py.pystr :=
  [Py.u "queen"; Py.u "The"; Py.u "king"; Py.u "."; Py.u "King"; Py.u "the"].

Example royal_split :
  Py.split (spaced_text royal_text)
  = [Py.u "The"; Py.u "king"; Py.u "the"; Py.u "King"; Py.u "the";
     Py.u "queen"; Py.u "."].
Proof. reflexivity. Qed.

Example royal_words :
  words_from lower_ascii cased_nlp royal_order
  = <[Py.u "king" := [1; 0]%Q]> (<[Py.u "queen" := [1; 1]%Q]> ∅).
Proof. by vm_compute. Qed.

(** *** C2 *)

Definition king_text : Py.pystr := Py.u "The King.".

Example king_words :
  Py.split (spaced_text king_text) = [Py.u "The"; Py.u "King"; Py.u "."]
  /\ words_from lower_ascii cased_nlp (Py.split (spaced_text king_text))
     = <[Py.u "king" := [1; 0]%Q]> ∅
  /\ cased_nlp (Py.u "king") = [0; 1]%Q.
Proof. repeat split; by vm_compute. Qed.

(** C2 as stated fails. With a pipeline that tells ["King"] from ["king"],
    the text ["The King."] gives the single key ["king"], and the value stored
    under it is the vector of ["King"], not the vector of the key. *)
Lemma words_value_is_not_vector_of_key :
  iterates_set (Py.split (spaced_text king_text))
    (Py.split (spaced_text king_text))
  /\ ~ map_Forall (fun k v =>
        (exists word, word ∈ Py.split (spaced_text king_text)
                      /\ k = lower_ascii word)
        /\ v = cased_nlp k /\ np_any v = true)
      (words_from lower_ascii cased_nlp (Py.split (spaced_text king_text))).
Proof.
  split; [apply (bool_decide_unpack _); by vm_compute|].
  intros Hall.
  destruct (Hall (Py.u "king") [1; 0]%Q) as (_ & Hv & _); [by vm_compute|].
  vm_compute in Hv. discriminate Hv.
Qed.

Lemma words_from_lookup_last
    (lower : Py.pystr -> Py.pystr) (nlp_vector : Py.pystr -> vec)
    (ws : list Py.pystr) (k : Py.pystr) (v : vec) :
  words_from lower nlp_vector ws !! k = Some v ->
  exists pre word post,
    ws = pre ++ word :: post
    /\ k = lower word /\ v = nlp_vector word /\ np_any v = true
    /\ Forall (fun later =>
         lower later = k -> np_any (nlp_vector later) = false) post.
Proof.
  revert k v. induction ws as [|last ws IH] using rev_ind; intros k v Hk.
  - unfold words_from in Hk. simpl in Hk. by rewrite lookup_empty in Hk.
  - rewrite words_from_snoc in Hk. unfold words_step in Hk.
    destruct (np_any (nlp_vector last)) eqn:Hany.
    + destruct (decide (lower last = k)) as [<-|Hne].
      * rewrite lookup_insert_eq in Hk. injection Hk as <-.
        exists ws, last, []. by repeat split.
      * rewrite lookup_insert_ne in Hk by done.
        destruct (IH _ _ Hk) as (pre & word & post & -> & Hrest).
        exists pre, word, (post ++ [last]).
        split; [by rewrite <- app_assoc|].
        destruct Hrest as (? & ? & ? & Hpost). repeat split; [done..|].
        apply Forall_app. split; [done|]. by repeat constructor.
    + destruct (IH _ _ Hk) as (pre & word & post & -> & Hrest).
      exists pre, word, (post ++ [last]).
      split; [by rewrite <- app_assoc|].
      destruct Hrest as (? & ? & ? & Hpost). repeat split; [done..|].
      apply Forall_app. split; [done|]. by repeat constructor.
Qed.

(** C2 (amended). Whatever order the set of words is iterated in, every key
    of the dictionary is the lowercase form of a word of the cleaned text; its
    value is the vector of that word as it stands in the text (not of the
    key), is not all zero, and belongs to the last word in the iteration, among
    those with that lowercase form, whose vector is not all zero; and the
    lowercase form of every word of the text with a vector that is not all
    zero is a key. *)
Theorem words_entries_come_from_text
    (lower : Py.pystr -> Py.pystr) (nlp_vector : Py.pystr -> vec)
    (raw_text : Py.pystr) (ws : list Py.pystr) :
  iterates_set ws (Py.split (spaced_text raw_text)) ->
  map_Forall (fun k v =>
      exists pre word post,
        ws = pre ++ word :: post
        /\ word ∈ Py.split (spaced_text raw_text)
        /\ k = lower word /\ v = nlp_vector word
        /\ np_any v = true
        /\ Forall (fun later =>
             lower later = k -> np_any (nlp_vector later) = false) post)
    (words_from lower nlp_vector ws)
  /\ Forall (fun word =>
       np_any (nlp_vector word) = true ->
       is_Some (words_from lower nlp_vector ws !! lower word))
     (Py.split (spaced_text raw_text)).
Proof.
  intros (_ & Hsub & Hsup). split.
  - intros k v Hk.
    destruct (words_from_lookup_last _ _ _ _ _ Hk)
      as (pre & word & post & Hws & Hkey & Hv & Hany & Hpost).
    exists pre, word, post. split; [done|]. split; [|done].
    apply (proj1 (Forall_forall _ _) Hsub). rewrite Hws.
    apply elem_of_app. right. by left.
  - apply Forall_forall. intros word Hin Hany.
    apply words_from_key; [|done].
    by apply (proj1 (Forall_forall _ _) Hsup).
Qed.

Lemma words_entries_come_from_text_witness :
  iterates_set royal_order (Py.split (spaced_text royal_text))
  /\ map_Forall (fun k v =>
        exists pre word post,
          royal_order = pre ++ word :: post
          /\ word ∈ Py.split (spaced_text royal_text)
          /\ k = lower_ascii word /\ v = cased_nlp word
          /\ np_any v = true
          /\ Forall (fun later =>
               lower_ascii later = k -> np_any (cased_nlp later) = false)
               post)
      (words_from lower_ascii cased_nlp royal_order)
  /\ Forall (fun word =>
       np_any (cased_nlp word) = true ->
       is_Some (words_from lower_ascii cased_nlp royal_order
                  !! lower_ascii word))
     (Py.split (spaced_text royal_text)).
Proof.
  assert (Hset : iterates_set royal_order (Py.split (spaced_text royal_text))).
  { apply (bool_decide_unpack _). by vm_compute. }
  split; [exact Hset|].
  exact (words_entries_come_from_text lower_ascii cased_nlp royal_text
           royal_order Hset).
Defined.

(** In [royal_order] the word ["king"] comes before ["King"], both with a
    vector that is not all zero: the later one gives the value. *)
Example royal_last_wins :
  words_from lower_ascii cased_nlp royal_order !! Py.u "king"
  = Some (cased_nlp (Py.u "King")).
Proof. by vm_compute. Qed.

(** *** The sentence matrix *)

Lemma mean_operands_omap (words : gmap Py.pystr vec) (phrase : Py.pystr) :
  mean_operands words phrase = omap (fun c => words !! [c]) phrase.
Proof.
  induction phrase as [|c phrase IH]; [done|].
  change (mean_operands words (c :: phrase))
    with (match words !! [c] with Some v => [v] | None => [] end
          ++ mean_operands words phrase).
  rewrite IH. simpl. by destruct (words !! [c]).
Qed.

Lemma sentence_rows_inv (words : gmap Py.pystr vec) phrases rows :
  sentence_rows words phrases = Ok rows ->
  Forall2 (fun phrase a => sentence_row words phrase = Ok a)
    (List.filter long_enough phrases) rows.
Proof.
  revert rows. induction phrases as [|phrase rest IH]; simpl; intros rows Hrows.
  - injection Hrows as <-. constructor.
  - destruct (long_enough phrase); [|by apply IH].
    destruct (sentence_row words phrase) as [a|e] eqn:Hrow; [|done].
    simpl in Hrows.
    destruct (sentence_rows words rest) as [rows'|e]; [|done].
    injection Hrows as <-. constructor; [done|by apply IH].
Qed.

Lemma np_vstack_inv arrs X :
  np_vstack arrs = Ok X -> X = atleast_2d <$> arrs.
Proof.
  destruct arrs as [|a rest]; simpl; [done|].
  destruct (forallb _ rest); [|done]. by intros [= <-].
Qed.

Lemma sentence_matrix_inv (words : gmap Py.pystr vec) phrases X :
  sentence_matrix words phrases = Ok X ->
  Forall2 (fun phrase row =>
      exists a, sentence_row words phrase = Ok a /\ row = atleast_2d a)
    (List.filter long_enough phrases) X.
Proof.
  unfold sentence_matrix. intros HX.
  destruct (sentence_rows words phrases) as [rows|e] eqn:Hrows; [|done].
  simpl in HX. apply np_vstack_inv in HX as ->.
  apply Forall2_fmap_r. eapply Forall2_impl; [by apply sentence_rows_inv|].
  intros phrase a Hrow. by exists a.
Qed.

Lemma filter_sublist {A} (f : A -> bool) (l : list A) :
  List.filter f l `sublist_of` l.
Proof.
  induction l as [|x l IH]; simpl; [constructor|].
  destruct (f x); by constructor.
Qed.

Lemma length_foldl_vec_add (d : nat) (v : vec) (rest : list vec) :
  length v = d -> Forall (fun w => length w = d) rest ->
  length (foldl vec_add v rest) = d.
Proof.
  revert v. induction rest as [|w rest IH]; intros v Hv Hrest; [done|].
  apply Forall_cons in Hrest as [Hw Hrest]. simpl. apply IH; [|done].
  unfold vec_add. rewrite length_zip_with. lia.
Qed.

Lemma np_mean_axis0_defined (d : nat) (vs : list vec) :
  vs <> [] -> Forall (fun w => length w = d) vs ->
  exists v, np_mean_axis0 vs = Ok (Arr1 v) /\ length v = d.
Proof.
  destruct vs as [|v rest]; [done|]. intros _ Hall.
  apply Forall_cons in Hall as [Hv Hrest]. unfold np_mean_axis0.
  assert (forallb (fun w => length w =? length v) rest = true) as ->.
  { apply forallb_forall. intros w Hw%list_elem_of_In.
    apply Nat.eqb_eq. rewrite Hv.
    by apply (proj1 (Forall_forall _ _) Hrest). }
  eexists. split; [done|].
  rewrite length_fmap. by apply length_foldl_vec_add.
Qed.

Lemma sentence_row_defined (d : nat) (words : gmap Py.pystr vec) phrase :
  map_Forall (fun _ v => length v = d) words ->
  Exists (fun c => is_Some (words !! [c])) phrase ->
  exists v, sentence_row words phrase = Ok (Arr1 v) /\ length v = d.
Proof.
  intros Hdim Hkey. apply np_mean_axis0_defined.
  - rewrite mean_operands_omap.
    apply Exists_exists in Hkey as (c & Hc & v & Hv).
    intros Hnil. assert (v ∈ omap (fun c => words !! [c]) phrase) as Hin.
    { apply list_elem_of_omap. by exists c. }
    rewrite Hnil in Hin. by apply not_elem_of_nil in Hin.
  - rewrite mean_operands_omap. apply Forall_forall.
    intros v (c & _ & Hv)%list_elem_of_omap. by apply (Hdim [c]).
Qed.

Lemma sentence_rows_defined (d : nat) (words : gmap Py.pystr vec) phrases :
  map_Forall (fun _ v => length v = d) words ->
  Forall (fun phrase =>
      long_enough phrase = true ->
      Exists (fun c => is_Some (words !! [c])) phrase) phrases ->
  exists rows, sentence_rows words phrases = Ok rows
               /\ Forall (fun a => length (atleast_2d a) = d) rows.
Proof.
  intros Hdim. induction phrases as [|phrase rest IH]; intros Hall.
  - by exists [].
  - apply Forall_cons in Hall as [Hphrase Hrest].
    destruct (IH Hrest) as (rows & Hrows & Hwidth). simpl.
    destruct (long_enough phrase); [|by exists rows].
    destruct (sentence_row_defined d words phrase Hdim (Hphrase eq_refl))
      as (v & -> & Hv).
    simpl. rewrite Hrows. simpl. eexists. split; [done|].
    constructor; [|done]. simpl. by rewrite length_fmap.
Qed.

Lemma np_vstack_defined (d : nat) arrs :
  arrs <> [] -> Forall (fun a => length (atleast_2d a) = d) arrs ->
  np_vstack arrs = Ok (atleast_2d <$> arrs).
Proof.
  destruct arrs as [|a rest]; [done|]. intros _ Hall.
  apply Forall_cons in Hall as [Ha Hrest]. unfold np_vstack.
  assert (forallb (fun b => length (atleast_2d b) =? length (atleast_2d a))
            rest = true) as ->; [|done].
  apply forallb_forall. intros b Hb%list_elem_of_In.
  apply Nat.eqb_eq. rewrite Ha.
  by apply (proj1 (Forall_forall _ _) Hrest).
Qed.

(** *** C10 *)

(** C10. When every value of the dictionary has dimension [d], every phrase
    of at least five words has a character that is a key, and there is such a
    phrase, the sentence matrix exists; it has one row per phrase of at least
    five words and none for a shorter phrase, and its rows follow the order of
    the phrases. *)
Theorem sentence_matrix_one_row_per_long_phrase
    (d : nat) (words : gmap Py.pystr vec) (phrases : list Py.pystr) :
  map_Forall (fun _ v => length v = d) words ->
  Forall (fun phrase =>
      long_enough phrase = true ->
      Exists (fun c => is_Some (words !! [c])) phrase) phrases ->
  Exists (fun phrase => long_enough phrase = true) phrases ->
  exists X,
    sentence_matrix words phrases = Ok X
    /\ length X = length (List.filter long_enough phrases)
    /\ List.filter long_enough phrases `sublist_of` phrases
    /\ Forall (fun phrase => 5 <= length (Py.split phrase))
         (List.filter long_enough phrases)
    /\ Forall2 (fun phrase row =>
           exists a, sentence_row words phrase = Ok a /\ row = atleast_2d a)
         (List.filter long_enough phrases) X.
Proof.
  intros Hdim Hkeys Hsome.
  destruct (sentence_rows_defined d words phrases Hdim Hkeys)
    as (rows & Hrows & Hwidth).
  assert (Hlen : length (List.filter long_enough phrases) = length rows).
  { eapply Forall2_length. by apply sentence_rows_inv. }
  assert (Hne : rows <> []).
  { intros ->. apply Exists_exists in Hsome as (phrase & Hin & Hlong).
    assert (phrase ∈ List.filter long_enough phrases) as Hin'.
    { apply list_elem_of_In, filter_In. by rewrite <- list_elem_of_In. }
    destruct (List.filter long_enough phrases); [|done].
    by apply not_elem_of_nil in Hin'. }
  assert (HX : sentence_matrix words phrases = Ok (atleast_2d <$> rows)).
  { unfold sentence_matrix. rewrite Hrows. simpl.
    by apply (np_vstack_defined d). }
  exists (atleast_2d <$> rows). split; [done|].
  split; [by rewrite length_fmap|].
  split; [apply filter_sublist|].
  split; [|by apply sentence_matrix_inv].
  apply Forall_forall. intros phrase [_ Hlong]%list_elem_of_In%filter_In.
  by apply Nat.leb_le.
Qed.

(** A pipeline that knows two words only. *)
Definition short_nlp (word : Py.pystr) : vec :=
  if decide (word = Py.u "a") then [2]%Q
  else if decide (word = Py.u "bb") then [4]%Q
  else [0]%Q.

Definition short_text : Py.pystr :=
  raw_text_of [Py.u "a bb cc dd ee. x y."; Py.u " a a a a a."].

Definition short_words : gmap Py.pystr vec :=
  words_from lower_ascii short_nlp (Py.split (spaced_text short_text)).

Example short_phrases :
  phrases_of short_text
  = [Py.u "a bb cc dd ee"; Py.u " x y"; Py.u " a a a a a"; Py.u ""].
Proof. reflexivity. Qed.

Example short_words_value :
  short_words = <[Py.u "a" := [2]%Q]> (<[Py.u "bb" := [4]%Q]> ∅).
Proof. by vm_compute. Qed.

Lemma sentence_matrix_one_row_per_long_phrase_witness :
  exists X,
    sentence_matrix short_words (phrases_of short_text) = Ok X
    /\ length X = 2
    /\ [Py.u "a bb cc dd ee"; Py.u " a a a a a"]
         `sublist_of` phrases_of short_text
    /\ Forall (fun phrase => 5 <= length (Py.split phrase))
         [Py.u "a bb cc dd ee"; Py.u " a a a a a"]
    /\ Forall2 (fun phrase row =>
           exists a, sentence_row short_words phrase = Ok a
                     /\ row = atleast_2d a)
         [Py.u "a bb cc dd ee"; Py.u " a a a a a"] X.
Proof.
  apply (sentence_matrix_one_row_per_long_phrase 1 short_words
           (phrases_of short_text)).
  - rewrite short_words_value. intros k v Hk.
    destruct (decide (k = Py.u "a")) as [->|Ha].
    + rewrite lookup_insert_eq in Hk. by injection Hk as <-.
    + rewrite lookup_insert_ne in Hk by done.
      destruct (decide (k = Py.u "bb")) as [->|Hb].
      * rewrite lookup_insert_eq in Hk. by injection Hk as <-.
      * rewrite lookup_insert_ne in Hk by done. by rewrite lookup_empty in Hk.
  - rewrite short_phrases.
    apply Forall_cons; split;
      [intros _; apply Exists_cons_hd; exists [2]%Q; by vm_compute|].
    apply Forall_cons; split; [intros Hlong; by vm_compute in Hlong|].
    apply Forall_cons; split;
      [intros _; apply Exists_cons_tl, Exists_cons_hd; exists [2]%Q;
       by vm_compute|].
    apply Forall_cons; split; [intros Hlong; by vm_compute in Hlong|].
    by apply Forall_nil.
  - rewrite short_phrases. apply Exists_cons_hd. reflexivity.
Defined.

Example short_matrix :
  sentence_matrix short_words (phrases_of short_text)
  = Ok [[fin 2]; [fin 2]].
Proof. by vm_compute. Qed.

(** *** C1 *)

(** C1. On the phrase ["a bb cc dd ee"], whose words ["a"] and ["bb"] are
    keys with vectors [2] and [4], the row of the sentence matrix is the mean
    over the characters that are keys (the single ["a"]), namely [2], where
    the mean of the vectors of the words of the phrase is [3]. *)
Theorem sentence_row_averages_characters :
  long_enough (Py.u "a bb cc dd ee") = true
  /\ short_words !! Py.u "a" = Some [2]%Q
  /\ short_words !! Py.u "bb" = Some [4]%Q
  /\ mean_operands short_words (Py.u "a bb cc dd ee") = [[2]%Q]
  /\ sentence_row short_words (Py.u "a bb cc dd ee") = Ok (Arr1 [2]%Q)
  /\ documented_operands short_words (Py.u "a bb cc dd ee") = [[2]; [4]]%Q
  /\ documented_row short_words (Py.u "a bb cc dd ee") = Ok (Arr1 [3]%Q).
Proof. repeat split; by vm_compute. Qed.

(** *** C3 *)

Lemma mean_operands_no_key (words : gmap Py.pystr vec) (phrase : Py.pystr) :
  Forall (fun c => words !! [c] = None) phrase ->
  mean_operands words phrase = [].
Proof.
  rewrite mean_operands_omap.
  induction 1 as [|c phrase' Hc _ IH]; [done|].
  simpl. by rewrite Hc.
Qed.

(** C3. Nothing stands between the length filter and the mean: for a phrase
    of at least five words none of whose characters is a key, the list handed
    to [np.mean] is empty and the row is the [nan] of an empty mean. *)
Theorem mean_of_empty_is_reached
    (words : gmap Py.pystr vec) (phrase : Py.pystr) :
  long_enough phrase = true ->
  Forall (fun c => words !! [c] = None) phrase ->
  mean_operands words phrase = []
  /\ sentence_row words phrase = Ok Nan0
  /\ exists rows, sentence_rows words [phrase] = Ok rows /\ Nan0 ∈ rows.
Proof.
  intros Hlong Hnone.
  pose proof (mean_operands_no_key words phrase Hnone) as Hops.
  assert (Hrow : sentence_row words phrase = Ok Nan0).
  { unfold sentence_row. by rewrite Hops. }
  split; [done|]. split; [done|].
  exists [Nan0]. simpl. rewrite Hlong, Hrow. simpl.
  split; [done|]. by left.
Qed.

(** A pipeline with a vector for every word. *)
Definition flat_nlp (word : Py.pystr) : vec := [1; 1]%Q.

Definition cat_text : Py.pystr := raw_text_of [Py.u "the cat sat on mat."].

Definition cat_words : gmap Py.pystr vec :=
  words_from lower_ascii flat_nlp (Py.split (spaced_text cat_text)).

Example cat_words_keys :
  cat_words !! Py.u "the" = Some [1; 1]%Q
  /\ cat_words !! Py.u "cat" = Some [1; 1]%Q
  /\ cat_words !! Py.u "mat" = Some [1; 1]%Q
  /\ phrases_of cat_text = [Py.u "the cat sat on mat"; Py.u ""].
Proof. repeat split; by vm_compute. Qed.

Lemma mean_of_empty_is_reached_witness :
  mean_operands cat_words (Py.u "the cat sat on mat") = []
  /\ sentence_row cat_words (Py.u "the cat sat on mat") = Ok Nan0
  /\ exists rows,
       sentence_rows cat_words [Py.u "the cat sat on mat"] = Ok rows
       /\ Nan0 ∈ rows.
Proof.
  apply (mean_of_empty_is_reached cat_words (Py.u "the cat sat on mat")).
  - reflexivity.
  - apply (bool_decide_unpack _). by vm_compute.
Defined.

(** ** Cells 40 and 44: printing the members of each cluster *)

(** [items[i]] for an index that is not negative. *)
Definition getitem {A} (items : list A) (i : nat) : result A :=
  match items !! i with
  | Some x => Ok x
  | None => Raise IndexError
  end.

Fixpoint insert_unique (x : Z) (sorted : list Z) : list Z :=
  match sorted with
  | [] => [x]
  | y :: rest =>
      if (x <? y)%Z then x :: sorted
      else if (x =? y)%Z then sorted
      else y :: insert_unique x rest
  end.

(** [np.unique(labels)]: the distinct labels in increasing order. *)
Definition np_unique (labels : list Z) : list Z :=
  foldr insert_unique [] labels.

Fixpoint where_eq_from (i : nat) (labels : list Z) (cluster_id : Z)
    : list nat :=
  match labels with
  | [] => []
  | l :: rest =>
      if (l =? cluster_id)%Z then i :: where_eq_from (S i) rest cluster_id
      else where_eq_from (S i) rest cluster_id
  end.

(** [np.where(labels == cluster_id)[0]] *)
Definition np_where_eq (labels : list Z) (cluster_id : Z) : list nat :=
  where_eq_from 0 labels cluster_id.

(** What a cell writes to its output. *)
Inductive line :=
  | Header (cluster_id : Z)
  | Members (items : list Py.pystr).

(** The loop body shared by both cells, over the ids still to visit; [out]
    is what has been printed so far:
    [if cluster_id >= 0: print(f"Cluster {cluster_id}");
     print([items[i] for i in np.where(labels == cluster_id)[0]])] *)
Fixpoint print_clusters (items : list Py.pystr) (labels : list Z)
    (ids : list Z) (out : list line) : list line * result unit :=
  match ids with
  | [] => (out, Ok tt)
  | cluster_id :: rest =>
      if (0 <=? cluster_id)%Z then
        let out1 := out ++ [Header cluster_id] in
        match rmap (getitem items) (np_where_eq labels cluster_id) with
        | Ok members =>
            print_clusters items labels rest (out1 ++ [Members members])
        | Raise e => (out1, Raise e)
        end
      else print_clusters items labels rest out
  end.

(** Cell 40: the items are [phrases]. *)
Definition print_sentence_clusters (phrases : list Py.pystr) (labels : list Z)
    : list line * result unit :=
  print_clusters phrases labels (np_unique labels) [].

(** Cell 44: the items are [list(words.keys())]. *)
Definition print_word_clusters (keys : list Py.pystr) (labels : list Z)
    : list line * result unit :=
  print_clusters keys labels (np_unique labels) [].

(** The cluster ids that appear in an output. *)
Definition printed_ids (out : list line) : list Z :=
  out ≫= (fun ln => match ln with Header c => [c] | Members _ => [] end).

(** Cell 40 reads [phrases[i]] for a row [i] of the sentence matrix: with a
    short first phrase, row 1 is the third phrase and the second is printed. *)
Example print_sentence_clusters_reads_phrases :
  print_sentence_clusters
    [Py.u "short"; Py.u "a b c d e"; Py.u "f g h i j"] [-1; 0]%Z
  = ([Header 0; Members [Py.u "a b c d e"]], Ok tt).
Proof. reflexivity. Qed.

Example print_sentence_clusters_example :
  print_sentence_clusters
    [Py.u "p0"; Py.u "p1"; Py.u "p2"; Py.u "p3"; Py.u "p4"]
    [1; -1; 0; 1]%Z
  = ([Header 0; Members [Py.u "p2"];
      Header 1; Members [Py.u "p0"; Py.u "p3"]], Ok tt).
Proof. reflexivity. Qed.

Lemma elem_of_insert_unique x y sorted :
  y ∈ insert_unique x sorted <-> y = x \/ y ∈ sorted.
Proof.
  induction sorted as [|z rest IH]; simpl.
  - rewrite list_elem_of_singleton. split; [by left|].
    intros [?|Hin]; [done|by apply not_elem_of_nil in Hin].
  - destruct (Z.ltb_spec x z); [by rewrite elem_of_cons|].
    destruct (Z.eqb_spec x z) as [->|Hne].
    + rewrite !elem_of_cons. tauto.
    + rewrite !elem_of_cons, IH. tauto.
Qed.

Lemma elem_of_np_unique y labels : y ∈ np_unique labels <-> y ∈ labels.
Proof.
  induction labels as [|l rest IH]; simpl; [done|].
  by rewrite elem_of_insert_unique, elem_of_cons, IH.
Qed.

Lemma elem_of_where_eq_from j i labels c :
  j ∈ where_eq_from i labels c
  <-> exists k, j = i + k /\ labels !! k = Some c.
Proof.
  revert i. induction labels as [|l rest IH]; intros i; simpl.
  - split; [by intros ?%not_elem_of_nil|by intros (k & _ & ?)].
  - assert (Hrest : j ∈ where_eq_from (S i) rest c
                    <-> exists k, j = i + S k /\ rest !! k = Some c).
    { rewrite IH. split; intros (k & -> & Hk); exists k; (split; [lia|done]). }
    destruct (Z.eqb_spec l c) as [->|Hne].
    + rewrite elem_of_cons, Hrest. split.
      * intros [->|(k & -> & Hk)]; [exists 0|exists (S k)]; (split; [lia|done]).
      * intros ([|k] & -> & Hk); [left; lia|right; by exists k].
    + rewrite Hrest. split.
      * intros (k & -> & Hk). by exists (S k).
      * intros ([|k] & -> & Hk); [simpl in Hk; congruence|by exists k].
Qed.

Lemma elem_of_np_where_eq j labels c :
  j ∈ np_where_eq labels c <-> labels !! j = Some c.
Proof.
  unfold np_where_eq. rewrite elem_of_where_eq_from. split.
  - by intros (k & -> & Hk).
  - intros Hj. by exists j.
Qed.

Lemma rmap_getitem_defined {A} (items : list A) (idxs : list nat) :
  Forall (fun i => i < length items) idxs ->
  exists members, rmap (getitem items) idxs = Ok members.
Proof.
  induction 1 as [|i idxs Hi _ (members & IH)]; [by exists []|].
  simpl. unfold getitem at 1.
  destruct (lookup_lt_is_Some_2 items i Hi) as [x ->]. simpl.
  rewrite IH. simpl. by eexists.
Qed.

Lemma print_clusters_spec items labels ids out :
  length labels <= length items ->
  exists out',
    print_clusters items labels ids out = (out', Ok tt)
    /\ printed_ids out'
       = printed_ids out ++ List.filter (fun c => (0 <=? c)%Z) ids.
Proof.
  intros Hlen. revert out. induction ids as [|c rest IH]; intros out; simpl.
  - exists out. by rewrite app_nil_r.
  - destruct (0 <=? c)%Z; [|apply IH].
    destruct (rmap_getitem_defined items (np_where_eq labels c))
      as [members ->].
    { apply Forall_forall. intros i Hi%elem_of_np_where_eq.
      apply lookup_lt_Some in Hi. lia. }
    destruct (IH ((out ++ [Header c]) ++ [Members members]))
      as (out' & -> & Hids).
    exists out'. split; [done|]. rewrite Hids. unfold printed_ids.
    rewrite !bind_app. simpl. by rewrite app_nil_r, <- app_assoc.
Qed.

(** The ids: with a label for no more observations than there are items,
    both printing loops run to the end, and the ids they print are the
    distinct labels that are not negative, so never -1; the indices selected
    for a printed id carry that id as their label. *)
Theorem outliers_are_not_printed
    (items : list Py.pystr) (labels : list Z) :
  length labels <= length items ->
  exists out,
    print_sentence_clusters items labels = (out, Ok tt)
    /\ print_word_clusters items labels = (out, Ok tt)
    /\ printed_ids out = List.filter (fun c => (0 <=? c)%Z) (np_unique labels)
    /\ Forall (fun c => (0 <= c)%Z /\ c ∈ labels) (printed_ids out)
    /\ ((-1)%Z ∉ printed_ids out)
    /\ Forall (fun c =>
         Forall (fun i => labels !! i = Some c /\ labels !! i <> Some (-1)%Z)
           (np_where_eq labels c))
       (printed_ids out).
Proof.
  intros Hlen.
  destruct (print_clusters_spec items labels (np_unique labels) [] Hlen)
    as (out & Hrun & Hids).
  simpl in Hids.
  assert (Hall : Forall (fun c => (0 <= c)%Z /\ c ∈ labels) (printed_ids out)).
  { rewrite Hids. apply Forall_forall.
    intros c [Hc Hpos]%list_elem_of_In%filter_In. split; [lia|].
    by apply elem_of_np_unique, list_elem_of_In. }
  exists out. split; [done|]. split; [done|]. split; [done|].
  split; [done|]. split.
  - intros Hin. apply (proj1 (Forall_forall _ _) Hall) in Hin. lia.
  - eapply Forall_impl; [exact Hall|]. intros c [Hpos _]. cbv beta.
    apply Forall_forall. intros i Hi%elem_of_np_where_eq.
    split; [done|]. rewrite Hi. intros [=]. lia.
Qed.

Lemma outliers_are_not_printed_witness :
  exists out,
    print_sentence_clusters
      [Py.u "p0"; Py.u "p1"; Py.u "p2"; Py.u "p3"; Py.u "p4"]
      [1; -1; 0; 1]%Z = (out, Ok tt)
    /\ print_word_clusters
      [Py.u "p0"; Py.u "p1"; Py.u "p2"; Py.u "p3"; Py.u "p4"]
      [1; -1; 0; 1]%Z = (out, Ok tt)
    /\ printed_ids out = [0; 1]%Z
    /\ Forall (fun c => (0 <= c)%Z /\ c ∈ [1; -1; 0; 1]%Z) (printed_ids out)
    /\ ((-1)%Z ∉ printed_ids out)
    /\ Forall (fun c =>
         Forall (fun i => [1; -1; 0; 1]%Z !! i = Some c
                          /\ [1; -1; 0; 1]%Z !! i <> Some (-1)%Z)
           (np_where_eq [1; -1; 0; 1]%Z c))
       (printed_ids out).
Proof.
  apply (outliers_are_not_printed
           [Py.u "p0"; Py.u "p1"; Py.u "p2"; Py.u "p3"; Py.u "p4"]
           [1; -1; 0; 1]%Z).
  simpl. lia.
Defined.

(** *** C8 *)




(** ** Cell 29: the heaviest terms of each centroid *)

Definition true_k : nat := 10.
Definition num_words : nat := 5.

(** Order of (weight, index) pairs by weight. *)
Definition weight_le (a b : Q * nat) : Prop := Qle_bool a.1 b.1 = true.

Global Instance weight_le_dec a b : Decision (weight_le a b).
Proof. unfold weight_le. apply _. Defined.

Global Instance weight_le_total : Total weight_le.
Proof.
  intros a b. unfold weight_le. rewrite !Qle_bool_iff.
  destruct (Qlt_le_dec a.1 b.1) as [Hlt|Hle]; [left|by right].
  by apply Qlt_le_weak.
Qed.

Global Instance weight_le_trans : Transitive weight_le.
Proof.
  intros a b c. unfold weight_le. rewrite !Qle_bool_iff. apply Qle_trans.
Qed.

(** [row.argsort()]: the indices of [row] by increasing weight. NumPy leaves
    the order of equal weights open; what is proved below uses only that the
    result is a permutation of the indices sorted by weight. *)
Definition argsort (row : vec) : list nat :=
  snd <$> merge_sort weight_le (zip row (seq 0 (length row))).

(** [centroids = model.cluster_centers_.argsort()[:, ::-1]] *)
Definition centroids_of (cluster_centers : list vec) : list (list nat) :=
  (fun row => reverse (argsort row)) <$> cluster_centers.

(** [[terms[j] for j in centroids[i, :num_words]]] *)
Definition cluster_terms (terms : list Py.pystr) (centroids : list (list nat))
    (i : nat) : result (list Py.pystr) :=
  rbind (getitem centroids i) (fun order =>
    rmap (getitem terms) (Py.slice_to (Z.of_nat num_words) order)).

(** [for i in range(true_k): print(f'Cluster {i}: {...}')]: the printed
    pairs. *)
Definition print_top_terms (cluster_centers : list vec) (terms : list Py.pystr)
    : result (list (nat * list Py.pystr)) :=
  rmap (fun i =>
      rbind (cluster_terms terms (centroids_of cluster_centers) i)
        (fun ts => Ok (i, ts)))
    (seq 0 true_k).

(** The weight of term [j] in a centroid. *)
Definition weight (row : vec) (j : nat) : Q := nth j row 0%Q.

Example argsort_example :
  argsort [3 # 10; 0; 9 # 10; 1 # 10]%Q = [1; 3; 0; 2].
Proof. by vm_compute. Qed.

Definition three_terms : list Py.pystr := [Py.u "cat"; Py.u "dog"; Py.u "eel"].

Definition three_term_centers : list vec :=
  replicate 5 [1 # 2; 0; 1 # 4]%Q ++ replicate 5 [0; 1; 1 # 3]%Q.

Example print_top_terms_three :
  print_top_terms three_term_centers three_terms
  = Ok (((fun i => (i, [Py.u "cat"; Py.u "eel"; Py.u "dog"])) <$> seq 0 5)
        ++ ((fun i => (i, [Py.u "dog"; Py.u "eel"; Py.u "cat"])) <$> seq 5 5)).
Proof. by vm_compute. Qed.

(** C9 as stated fails when the vocabulary has fewer than five terms: the
    slice [:num_words] is then the whole row, and three terms are printed. *)
Lemma fewer_than_num_words_terms :
  exists out,
    print_top_terms three_term_centers three_terms = Ok out
    /\ ~ Forall (fun printed => length printed.2 = num_words) out.
Proof.
  eexists. split; [by vm_compute|].
  intros Hall. apply Forall_cons in Hall as [Hlen _].
  vm_compute in Hlen. discriminate Hlen.
Qed.

Lemma argsort_Permutation (row : vec) : argsort row ≡ₚ seq 0 (length row).
Proof.
  unfold argsort. rewrite merge_sort_Permutation.
  rewrite snd_zip; [done|]. by rewrite length_seq.
Qed.

Lemma zip_seq_weight (row : vec) (i : nat) (p : Q * nat) :
  p ∈ zip row (seq i (length row)) -> i <= p.2 /\ p.1 = weight row (p.2 - i).
Proof.
  revert i. induction row as [|x row IH]; intros i; simpl.
  - by intros ?%not_elem_of_nil.
  - intros [->|Hin]%elem_of_cons.
    + simpl. split; [lia|]. by rewrite Nat.sub_diag.
    + destruct (IH _ Hin) as [Hle ->]. split; [lia|].
      unfold weight. by replace (p.2 - i) with (S (p.2 - S i)) by lia.
Qed.

Lemma argsort_sorted (row : vec) :
  StronglySorted (fun j k => (weight row j <= weight row k)%Q) (argsort row).
Proof.
  unfold argsort.
  pose proof (StronglySorted_merge_sort weight_le
                (zip row (seq 0 (length row)))) as Hsorted.
  assert (Hmem : Forall (fun p => p.1 = weight row p.2)
                   (merge_sort weight_le (zip row (seq 0 (length row))))).
  { apply Forall_forall. intros p Hp.
    rewrite merge_sort_Permutation in Hp.
    destruct (zip_seq_weight row 0 p Hp) as [_ ->].
    by rewrite Nat.sub_0_r. }
  revert Hsorted Hmem.
  generalize (merge_sort weight_le (zip row (seq 0 (length row)))).
  intros pairs. induction 1 as [|p pairs _ IH Hp]; intros Hmem; csimpl.
  - constructor.
  - apply Forall_cons in Hmem as [Hw Hmem]. constructor; [by apply IH|].
    rewrite Forall_fmap. apply Forall_forall. intros q Hq. cbv [compose].
    pose proof (proj1 (Forall_forall _ _) Hp q Hq) as Hle.
    pose proof (proj1 (Forall_forall _ _) Hmem q Hq) as Hwq.
    unfold weight_le in Hle. apply Qle_bool_iff in Hle.
    by rewrite <- Hw, <- Hwq.
Qed.

Lemma StronglySorted_reverse {A} (R : relation A) (l : list A) :
  StronglySorted R l -> StronglySorted (flip R) (reverse l).
Proof.
  induction 1 as [|x l _ IH Hx]; [constructor|].
  rewrite reverse_cons. apply StronglySorted_app_2; [|done|repeat constructor].
  intros y z Hy Hz%list_elem_of_singleton. subst z.
  rewrite elem_of_reverse in Hy.
  unfold flip. by apply (proj1 (Forall_forall _ _) Hx).
Qed.

(** The indices printed for one centroid: [reverse (argsort row)] cut at
    [num_words]. *)
Definition top_indices (row : vec) : list nat :=
  Py.slice_to (Z.of_nat num_words) (reverse (argsort row)).

Lemma top_indices_take (row : vec) :
  top_indices row = take (Nat.min num_words (length row)) (reverse (argsort row)).
Proof.
  unfold top_indices, Py.slice_to, Py.slice_bound.
  rewrite length_reverse, (Permutation_length (argsort_Permutation row)).
  rewrite length_seq. reflexivity.
Qed.

Lemma top_indices_spec (row : vec) :
  length (top_indices row) = Nat.min num_words (length row)
  /\ NoDup (top_indices row)
  /\ Forall (fun j => j < length row) (top_indices row)
  /\ StronglySorted (fun j k => (weight row k <= weight row j)%Q)
       (top_indices row)
  /\ (forall j k, j ∈ top_indices row -> k < length row ->
        k ∉ top_indices row -> (weight row k <= weight row j)%Q).
Proof.
  pose proof (argsort_Permutation row) as Hperm.
  pose proof (StronglySorted_reverse _ _ (argsort_sorted row)) as Hsorted.
  assert (Hperm' : reverse (argsort row) ≡ₚ seq 0 (length row)).
  { by rewrite reverse_Permutation. }
  rewrite top_indices_take.
  set (m := Nat.min num_words (length row)).
  rewrite <- (take_drop m (reverse (argsort row))) in Hsorted, Hperm'.
  assert (Hnodup : NoDup (take m (reverse (argsort row))
                          ++ drop m (reverse (argsort row)))).
  { rewrite Hperm'. apply NoDup_seq. }
  split.
  { rewrite length_take, length_reverse, (Permutation_length Hperm), length_seq.
    lia. }
  split; [by apply NoDup_app in Hnodup as [? _]|].
  split.
  { apply Forall_forall. intros j Hj.
    assert (j ∈ seq 0 (length row)) as Hin.
    { rewrite <- Hperm'. apply elem_of_app. by left. }
    apply elem_of_seq in Hin. lia. }
  split; [by apply StronglySorted_app_1_l in Hsorted|].
  intros j k Hj Hk Hnot.
  assert (k ∈ drop m (reverse (argsort row))) as Hkd.
  { assert (k ∈ seq 0 (length row)) as Hin by (apply elem_of_seq; lia).
    rewrite <- Hperm' in Hin. by apply elem_of_app in Hin as [?|?]. }
  exact (StronglySorted_app_1_elem_of _ _ _ _ _ Hsorted Hj Hkd).
Qed.

Lemma rmap_Forall2 {A B} (f : A -> result B) xs ys :
  rmap f xs = Ok ys <-> Forall2 (fun x y => f x = Ok y) xs ys.
Proof.
  revert ys. induction xs as [|x xs IH]; intros ys; simpl.
  - split; [by intros [= <-]; constructor|by inv 1].
  - destruct (f x) as [y|e] eqn:Hfx; simpl.
    + destruct (rmap f xs) as [ys'|e] eqn:Hrest; simpl.
      * split.
        -- intros [= <-]. constructor; [done|by apply IH].
        -- inv 1 as [|? y' ? ys'' Hy Hys]. apply IH in Hys.
           congruence.
      * split; [done|]. inv 1 as [|? y' ? ys'' Hy Hys]. by apply IH in Hys.
    + split; [done|]. inv 1. congruence.
Qed.

Lemma rmap_defined {A B} (f : A -> result B) xs :
  Forall (fun x => exists y, f x = Ok y) xs -> exists ys, rmap f xs = Ok ys.
Proof.
  induction 1 as [|x xs [y Hy] _ [ys IH]]; [by exists []|].
  simpl. rewrite Hy. simpl. rewrite IH. simpl. by eexists.
Qed.

Lemma cluster_terms_defined (cluster_centers : list vec)
    (terms : list Py.pystr) (i : nat) (row : vec) :
  cluster_centers !! i = Some row -> length row = length terms ->
  exists ts,
    cluster_terms terms (centroids_of cluster_centers) i = Ok ts
    /\ Forall2 (fun j t => terms !! j = Some t) (top_indices row) ts.
Proof.
  intros Hrow Hlen. unfold cluster_terms, centroids_of, getitem at 1.
  rewrite list_lookup_fmap, Hrow. simpl. fold (top_indices row).
  destruct (top_indices_spec row) as (_ & _ & Hlt & _).
  destruct (rmap_defined (getitem terms) (top_indices row)) as [ts Hts].
  { eapply Forall_impl; [exact Hlt|]. intros j Hj. cbv beta in Hj.
    rewrite Hlen in Hj. unfold getitem.
    destruct (lookup_lt_is_Some_2 terms j Hj) as [t ->]. by exists t. }
  exists ts. split; [done|].
  apply rmap_Forall2 in Hts. eapply Forall2_impl; [exact Hts|].
  intros j t. unfold getitem. by destruct (terms !! j); intros [=]; subst.
Qed.

(** C9 (amended). With one centroid per cluster and one weight per
    vocabulary term, the loop prints, for every cluster index [i] from 0 to
    [true_k - 1], a list of [min num_words (number of terms)] terms (five when
    the vocabulary has at least five terms); they are the terms at distinct
    indices whose weights in centroid [i] are listed in non-increasing order
    and are at least the weight of every term that is not listed. *)
Theorem top_terms_are_heaviest
    (cluster_centers : list vec) (terms : list Py.pystr) :
  length cluster_centers = true_k ->
  Forall (fun row => length row = length terms) cluster_centers ->
  exists out,
    print_top_terms cluster_centers terms = Ok out
    /\ length out = true_k
    /\ Forall (fun i =>
         exists row ts top,
           cluster_centers !! i = Some row
           /\ out !! i = Some (i, ts)
           /\ length ts = Nat.min num_words (length terms)
           /\ Forall2 (fun j t => terms !! j = Some t) top ts
           /\ NoDup top
           /\ StronglySorted (fun j k => (weight row k <= weight row j)%Q) top
           /\ (forall j k, j ∈ top -> k < length row -> k ∉ top ->
                 (weight row k <= weight row j)%Q))
       (seq 0 true_k).
Proof.
  intros Hk Hdim.
  assert (Heach : Forall (fun i => exists printed,
              rbind (cluster_terms terms (centroids_of cluster_centers) i)
                (fun ts => Ok (i, ts)) = Ok printed) (seq 0 true_k)).
  { apply Forall_forall. intros i Hi%elem_of_seq.
    destruct (lookup_lt_is_Some_2 cluster_centers i) as [row Hrow]; [lia|].
    destruct (cluster_terms_defined cluster_centers terms i row Hrow)
      as (ts & -> & _).
    { by apply (proj1 (Forall_forall _ _) Hdim), list_elem_of_lookup_2 with i. }
    by eexists. }
  destruct (rmap_defined _ _ Heach) as [out Hout].
  exists out. split; [done|].
  apply rmap_Forall2 in Hout.
  split; [by rewrite <- (Forall2_length _ _ _ Hout), length_seq|].
  apply Forall_forall. intros i Hi%elem_of_seq.
  destruct (lookup_lt_is_Some_2 cluster_centers i) as [row Hrow]; [lia|].
  assert (Hlen : length row = length terms).
  { by apply (proj1 (Forall_forall _ _) Hdim), list_elem_of_lookup_2 with i. }
  destruct (cluster_terms_defined cluster_centers terms i row Hrow Hlen)
    as (ts & Hts & Hterms).
  destruct (Forall2_lookup_l _ _ _ i i Hout) as (printed & Hprinted & Hrun).
  { apply lookup_seq. lia. }
  rewrite Hts in Hrun. simpl in Hrun. injection Hrun as <-.
  destruct (top_indices_spec row) as (Htop & Hnodup & _ & Hsorted & Hmax).
  exists row, ts, (top_indices row).
  split; [done|]. split; [done|].
  split; [by rewrite <- (Forall2_length _ _ _ Hterms), Htop, Hlen|].
  done.
Qed.

Definition six_terms : list Py.pystr :=
  [Py.u "city"; Py.u "river"; Py.u "town"; Py.u "hall"; Py.u "old";
   Py.u "market"].

Definition six_term_centers : list vec :=
  replicate 9 [1 # 2; 0; 1 # 4; 3 # 8; 3 # 4; 1 # 8]%Q
  ++ [[1 # 8; 1 # 4; 0; 1 # 2; 3 # 4; 1]%Q].

Example print_top_terms_six :
  print_top_terms six_term_centers six_terms
  = Ok (((fun i => (i, [Py.u "old"; Py.u "city"; Py.u "hall"; Py.u "town";
                        Py.u "market"])) <$> seq 0 9)
        ++ [(9, [Py.u "market"; Py.u "old"; Py.u "hall"; Py.u "river";
                 Py.u "city"])]).
Proof. by vm_compute. Qed.

Lemma top_terms_are_heaviest_witness :
  exists out,
    print_top_terms six_term_centers six_terms = Ok out
    /\ length out = 10
    /\ Forall (fun i =>
         exists row ts top,
           six_term_centers !! i = Some row
           /\ out !! i = Some (i, ts)
           /\ length ts = 5
           /\ Forall2 (fun j t => six_terms !! j = Some t) top ts
           /\ NoDup top
           /\ StronglySorted (fun j k => (weight row k <= weight row j)%Q) top
           /\ (forall j k, j ∈ top -> k < length row -> k ∉ top ->
                 (weight row k <= weight row j)%Q))
       (seq 0 10).
Proof.
  apply (top_terms_are_heaviest six_term_centers six_terms).
  - reflexivity.
  - unfold six_term_centers. simpl. repeat constructor.
Defined.

(** ** Cells that call into the libraries *)

(** Distance metrics named in the notebook. *)
Inductive metric := Euclidean | Cityblock | Minkowski | Cosine | Hamming.

(** What [requests.get] returns when it returns. *)
Record Response := mkResponse {
  status_code : nat;
  text : Py.pystr
}.

(** A fitted [KMeans]. *)
Record KMeansModel := mkKMeans {
  cluster_centers_ : list vec;
  labels_ : list Z
}.

Section Notebook.

(** The world the libraries act on (files, network, random generator), and
    what the notebook never looks into: a cell of the table, a feature
    matrix, a parsed page. *)
Context {World CellV Features Soup : Type}.

(** The objects bound to names or printed by these cells. *)
Inductive value :=
  | VTable (df : DataFrame CellV)
  | VResponse (r : Response)
  | VSoup (soup : Soup)
  | VStr (s : Py.pystr)
  | VStrs (l : list Py.pystr)
  | VFeatures (x : Features)
  | VLabels (l : list Z)
  | VFloat (x : Q)
  | VInt (n : nat)
  | VInts (l : list nat)
  | VFloats (l : list Q)
  | VRange (start stop : nat)
  | VScores (l : list (nat * Q))
  | VOrders (l : list (list nat))
  | VVectorizer (fitted : option (list Py.pystr))
  | VKMeans (n_clusters max_iter : nat) (fitted : option KMeansModel)
  | VClusterTerms (i : nat) (ts : list Py.pystr).

(** The session: global names, what has been printed, and the world. *)
Record session := mkSession {
  vars : gmap string value;
  stdout : list value;
  world : World
}.

(** A library call: it may change the world and may raise. *)
Definition Lib (A : Type) : Type := World -> World * result A.

(** A piece of a cell. *)
Definition Cell (A : Type) : Type := session -> session * result A.

Definition cret {A} (a : A) : Cell A := fun s => (s, Ok a).

(** Sequencing. An exception ends the cell where it arises: the session is
    left as it is at that point. *)
Definition cbind {A B} (m : Cell A) (k : A -> Cell B) : Cell B :=
  fun s => match m s with
           | (s', Ok a) => k a s'
           | (s', Raise e) => (s', Raise e)
           end.

(** [name = v] *)
Definition assign (name : string) (v : value) : Cell unit :=
  fun s => (mkSession (<[name := v]> (vars s)) (stdout s) (world s), Ok tt).

(** [print(v)] *)
Definition print (v : value) : Cell unit :=
  fun s => (mkSession (vars s) (stdout s ++ [v]) (world s), Ok tt).

Definition call {A} (op : Lib A) : Cell A :=
  fun s => let '(w, r) := op (world s) in
           (mkSession (vars s) (stdout s) w, r).

(** An exception raised by the notebook's own expression. *)
Definition lift {A} (r : result A) : Cell A := fun s => (s, r).

(** [for x in xs: body] *)
Fixpoint for_each {A} (xs : list A) (body : A -> Cell unit) : Cell unit :=
  match xs with
  | [] => cret tt
  | x :: rest => cbind (body x) (fun _ => for_each rest body)
  end.

End Notebook.

Arguments value : clear implicits.
Arguments session : clear implicits.
Arguments Lib : clear implicits.
Arguments Cell : clear implicits.

Notation "'let*' x ':=' m 'in' k" := (cbind m (fun x => k))
  (at level 10, x name, m at level 100, k at level 200,
   format "'[v' 'let*'  x  ':='  m  'in' '/' k ']'").
Notation "m ';>' k" := (cbind m (fun _ => k))
  (at level 100, k at level 200, right associativity,
   format "'[v' m  ';>' '/' k ']'").

(** The library routines the cells call. *)
Class Libraries (World CellV Features Soup : Type) := {
  (** [pd.read_table(path)] *)
  read_table : string -> Lib World (DataFrame CellV);
  (** [requests.get(url)] *)
  requests_get : string -> Lib World Response;
  (** [BeautifulSoup(markup, features)] *)
  BeautifulSoup : Py.pystr -> string -> Lib World Soup;
  (** [[paragraph.text for paragraph in soup.find_all('p')]] *)
  paragraph_texts : Soup -> list Py.pystr;
  (** [TfidfVectorizer(stop_words='english').fit_transform(docs)]: the
      fitted vocabulary and the matrix. *)
  fit_transform : list Py.pystr -> Lib World (list Py.pystr * Features);
  (** [X.todense()] *)
  todense : Features -> value CellV Features Soup;
  (** [vectorizer.get_stop_words()] *)
  get_stop_words : list Py.pystr;
  (** [KMeans(n_clusters, max_iter).fit(X)] *)
  KMeans_fit : nat -> nat -> Features -> Lib World KMeansModel;
  (** [silhouette_score(X, labels, metric)] *)
  silhouette_score : Features -> list Z -> metric -> Lib World Q;
  (** The figure of cell 15: ticks, abscissas, ordinates. *)
  plot_scores : list nat -> list nat -> list Q -> Lib World unit
}.

Section Cells.

Context {World CellV Features Soup : Type}.
Context {L : Libraries World CellV Features Soup}.

Local Abbreviation value := (value CellV Features Soup).
Local Abbreviation session := (session World CellV Features Soup).
Local Abbreviation Cell := (Cell World CellV Features Soup).

(** The [max_iter] of a [KMeans] built without one. *)
Definition default_max_iter : nat := 300.

(** [range(start, stop)] *)
Definition range (start stop : nat) : list nat := seq start (stop - start).

(** Cell 3: [df = pd.read_table("zoo.tab")] *)
Definition load_table : Cell unit :=
  let* df := call (read_table "zoo.tab") in
  assign "df" (VTable df).

(** The page fetched by cell 24. *)
Definition poznan_url : string := "https://en.wikipedia.org/wiki/Poznań".

(** Cell 24. *)
Definition fetch_page : Cell unit :=
  let* respond := call (requests_get poznan_url) in
  assign "respond" (VResponse respond) ;>
  let* soup := call (BeautifulSoup (text respond) "html") in
  assign "soup" (VSoup soup) ;>
  assign "page" (VStrs (paragraph_texts soup)) ;>
  assign "raw_text" (VStr (raw_text_of (paragraph_texts soup))) ;>
  print (VStr (Py.slice_to 1000 (raw_text_of (paragraph_texts soup)))).

(** Cell 26, on the [raw_text] of cell 24. *)
Definition vectorize (raw_text : Py.pystr) : Cell unit :=
  assign "phrases" (VStrs (phrases_of raw_text)) ;>
  assign "vectorizer" (VVectorizer None) ;>
  let* fitted := call (fit_transform (phrases_of raw_text)) in
  assign "vectorizer" (VVectorizer (Some fitted.1)) ;>
  assign "X" (VFeatures fitted.2) ;>
  print (VStr (Py.NL :: Py.u "Vocabulary")) ;>
  print (VStrs fitted.1) ;>
  print (VStr (Py.NL :: Py.u "List of stopwords")) ;>
  print (VStrs get_stop_words) ;>
  print (VStr (Py.NL :: Py.u "Document in the vector space")) ;>
  print (todense fitted.2).

(** Cell 29, on the [X] and the fitted vocabulary of cell 26. *)
Definition kmeans_top_terms (X : Features) (vocabulary : list Py.pystr)
    : Cell unit :=
  assign "true_k" (VInt true_k) ;>
  assign "num_words" (VInt num_words) ;>
  assign "model" (VKMeans true_k 1000 None) ;>
  let* model := call (KMeans_fit true_k 1000 X) in
  assign "model" (VKMeans true_k 1000 (Some model)) ;>
  assign "centroids" (VOrders (centroids_of (cluster_centers_ model))) ;>
  assign "terms" (VStrs vocabulary) ;>
  for_each (range 0 true_k) (fun i =>
    let* ts := lift (cluster_terms vocabulary
                       (centroids_of (cluster_centers_ model)) i) in
    print (VClusterTerms i ts)).

(** [scores.append((k, score))]: the list bound to [scores] grows in
    place. *)
Definition append_score (k : nat) (score : Q) : Cell unit :=
  fun s =>
    match vars s !! "scores" with
    | Some (VScores l) =>
        (mkSession (<["scores" := VScores (l ++ [(k, score)])]> (vars s))
           (stdout s) (world s), Ok tt)
    | _ => (s, Raise (LibraryFault "AttributeError"))
    end.

(** The body of the loop of cell 15:
    [kmeans = KMeans(n_clusters=k); labels = kmeans.fit_predict(X);
     score = silhouette_score(X, labels, metric='euclidean');
     scores.append((k, score))]. [fit_predict] is the fit followed by the
    labels of the fitted model. *)
Definition sweep_step (X : Features) (k : nat) : Cell unit :=
  assign "kmeans" (VKMeans k default_max_iter None) ;>
  let* model := call (KMeans_fit k default_max_iter X) in
  assign "kmeans" (VKMeans k default_max_iter (Some model)) ;>
  assign "labels" (VLabels (labels_ model)) ;>
  let* score := call (silhouette_score X (labels_ model) Euclidean) in
  assign "score" (VFloat score) ;>
  append_score k score.

(** The pairs in [scores] unzipped into [ax_x] and [ax_y] (two names need
    a pair at least), and the plot. *)
Definition plot_sweep : Cell unit :=
  fun s =>
    match vars s !! "scores" with
    | Some (VScores []) =>
        (s, Raise (ValueError "not enough values to unpack"))
    | Some (VScores l) =>
        (assign "ax_x" (VInts l.*1) ;>
         assign "ax_y" (VFloats l.*2) ;>
         call (plot_scores (range 2 20) l.*1 l.*2)) s
    | _ => (s, Raise (LibraryFault "TypeError"))
    end.

(** Cell 15, on the [X] of cell 10. *)
Definition sweep (X : Features) : Cell unit :=
  assign "k_range" (VRange 2 20) ;>
  assign "scores" (VScores []) ;>
  for_each (range 2 20) (sweep_step X) ;>
  plot_sweep.

(** *** Running a cell *)

Lemma cbind_Ok {A B} (m : Cell A) (k : A -> Cell B) (s s' : session) a :
  m s = (s', Ok a) -> cbind m k s = k a s'.
Proof. unfold cbind. by intros ->. Qed.

Lemma cbind_Raise {A B} (m : Cell A) (k : A -> Cell B) (s s' : session) e :
  m s = (s', Raise e) -> cbind m k s = (s', Raise e).
Proof. unfold cbind. by intros ->. Qed.

Lemma cbind_assign {B} name v (k : unit -> Cell B) (s : session) :
  cbind (assign name v) k s
  = k tt (mkSession (<[name := v]> (vars s)) (stdout s) (world s)).
Proof. reflexivity. Qed.

Lemma call_Raise {A} (op : Lib World A) (s : session) w e :
  op (world s) = (w, Raise e) ->
  call op s = (mkSession (vars s) (stdout s) w, Raise e).
Proof. unfold call. by intros ->. Qed.

(** *** The sweep over cluster counts *)

(** [score] is the silhouette under the Euclidean metric of the labels of a
    k-means fit with [k] clusters. *)
Definition scored (X : Features) (k : nat) (score : Q) : Prop :=
  exists w w1 model w2,
    KMeans_fit k default_max_iter X w = (w1, Ok model)
    /\ silhouette_score X (labels_ model) Euclidean w1 = (w2, Ok score).

(** The library does its part for [k]: the fit returns a model, and the
    silhouette of the labels of a model it returns can be computed. *)
Definition fits_and_scores (X : Features) (k : nat) : Prop :=
  (forall w, exists w1 model,
      KMeans_fit k default_max_iter X w = (w1, Ok model))
  /\ (forall w w1 model,
        KMeans_fit k default_max_iter X w = (w1, Ok model) ->
        exists w2 score,
          silhouette_score X (labels_ model) Euclidean w1 = (w2, Ok score)).

Lemma sweep_step_runs (X : Features) (k : nat) (s : session) acc :
  fits_and_scores X k ->
  vars s !! "scores" = Some (VScores acc) ->
  exists s' score,
    sweep_step X k s = (s', Ok tt)
    /\ vars s' !! "scores" = Some (VScores (acc ++ [(k, score)]))
    /\ scored X k score.
Proof.
  intros [Hfit Hscore] Hacc.
  destruct (Hfit (world s)) as (w1 & model & Hmodel).
  destruct (Hscore _ _ _ Hmodel) as (w2 & score & Hsc).
  unfold sweep_step, cbind, assign, call, append_score. simpl.
  rewrite Hmodel. simpl. rewrite Hsc. simpl.
  rewrite !lookup_insert_ne by done. rewrite Hacc.
  eexists _, score. split; [reflexivity|]. simpl.
  split; [by rewrite lookup_insert_eq|].
  by exists (world s), w1, model, w2.
Qed.

Lemma sweep_loop_runs (X : Features) (ks : list nat) (s : session) acc :
  Forall (fits_and_scores X) ks ->
  vars s !! "scores" = Some (VScores acc) ->
  exists s' new,
    for_each ks (sweep_step X) s = (s', Ok tt)
    /\ vars s' !! "scores" = Some (VScores (acc ++ new))
    /\ new.*1 = ks
    /\ Forall (fun entry => scored X entry.1 entry.2) new.
Proof.
  intros Hlib. revert s acc.
  induction Hlib as [|k ks Hk _ IH]; intros s acc Hacc.
  - exists s, []. rewrite app_nil_r. by repeat split.
  - destruct (sweep_step_runs X k s acc Hk Hacc)
      as (s1 & score & Hstep & Hacc1 & Hscored).
    destruct (IH s1 _ Hacc1) as (s' & new & Hrest & Hacc' & Hks & Hall).
    exists s', ((k, score) :: new). simpl. unfold cbind at 1. rewrite Hstep.
    split; [done|]. split; [by rewrite Hacc', <- app_assoc|].
    split; [by rewrite <- Hks|]. by constructor.
Qed.

(** C5. When, for every [k] from 2 to 19, k-means fits and the silhouette of
    its labels can be computed, the sweep leaves in [scores] exactly 18 pairs,
    one per [k] from 2 to 19 in increasing order, each [k] paired with the
    silhouette under the Euclidean metric of the labels of a k-means fit with
    [k] clusters. *)
Theorem sweep_scores_each_k_once (X : Features) (s : session) :
  Forall (fits_and_scores X) (seq 2 18) ->
  exists scores,
    vars (sweep X s).1 !! "scores" = Some (VScores scores)
    /\ length scores = 18
    /\ scores.*1 = [2; 3; 4; 5; 6; 7; 8; 9; 10; 11; 12; 13; 14; 15; 16; 17;
                    18; 19]
    /\ Forall (fun entry => scored X entry.1 entry.2) scores.
Proof.
  intros Hlib.
  set (s0 := mkSession (<["scores" := VScores []]>
                          (<["k_range" := VRange 2 20]> (vars s)))
               (stdout s) (world s)).
  destruct (sweep_loop_runs X (range 2 20) s0 [] Hlib)
    as (s1 & scores & Hrun & Hsc & Hks & Hall).
  { apply lookup_insert_eq. }
  simpl in Hsc. exists scores.
  assert (Hlen : length scores = 18).
  { by rewrite <- (length_fmap fst), Hks. }
  split; [|by repeat split].
  unfold sweep. rewrite !cbind_assign. fold s0.
  rewrite (cbind_Ok _ _ _ _ _ Hrun).
  unfold plot_sweep. rewrite Hsc.
  destruct scores as [|entry scores]; [done|].
  rewrite !cbind_assign. unfold call. cbn [world vars stdout].
  destruct (plot_scores _ _ _ _) as [w r]. cbn [fst vars].
  by rewrite !lookup_insert_ne, Hsc.
Qed.

(** *** Faults *)

Lemma for_each_app {A} (xs ys : list A) (body : A -> Cell unit) (s : session) :
  for_each (xs ++ ys) body s
  = cbind (for_each xs body) (fun _ => for_each ys body) s.
Proof.
  revert s. induction xs as [|x xs IH]; intros s; [done|].
  simpl. unfold cbind. destruct (body x s) as [s1 [[]|e]]; [|done].
  rewrite IH. reflexivity.
Qed.

(** The failures named by the notebook's description. *)
Inductive failure :=
  | MissingFile
  | FetchFailed
  | EmptyVocabulary
  | TooManyClusters.

(** The cell in which each arises. *)
Definition failing_cell (f : failure) (raw_text : Py.pystr) (X : Features)
    (vocabulary : list Py.pystr) : Cell unit :=
  match f with
  | MissingFile => load_table
  | FetchFailed => fetch_page
  | EmptyVocabulary => vectorize raw_text
  | TooManyClusters => kmeans_top_terms X vocabulary
  end.

(** The library call of that cell raises [e] in world [w] and leaves the
    world [w']. *)
Definition raises (f : failure) (raw_text : Py.pystr) (X : Features)
    (w w' : World) (e : exn) : Prop :=
  match f with
  | MissingFile => read_table "zoo.tab" w = (w', Raise e)
  | FetchFailed => requests_get poznan_url w = (w', Raise e)
  | EmptyVocabulary => fit_transform (phrases_of raw_text) w = (w', Raise e)
  | TooManyClusters => KMeans_fit true_k 1000 X w = (w', Raise e)
  end.

(** The names as the statements of the cell before that call leave them. *)
Definition bound_before (f : failure) (raw_text : Py.pystr)
    (names : gmap string value) : gmap string value :=
  match f with
  | MissingFile | FetchFailed => names
  | EmptyVocabulary =>
      <["vectorizer" := VVectorizer None]>
        (<["phrases" := VStrs (phrases_of raw_text)]> names)
  | TooManyClusters =>
      <["model" := VKMeans true_k 1000 None]>
        (<["num_words" := VInt num_words]>
          (<["true_k" := VInt true_k]> names))
  end.

(** C7. When the library call of a cell raises, the cell ends with that
    very exception; the names bound by the statements before the call stay
    bound and no other name changes, nothing is printed, and the world is the
    one the failing call left: no handler, no second attempt, no clean-up. *)
Theorem faults_leave_the_cell (f : failure) (raw_text : Py.pystr)
    (X : Features) (vocabulary : list Py.pystr) (s : session)
    (w' : World) (e : exn) :
  raises f raw_text X (world s) w' e ->
  failing_cell f raw_text X vocabulary s
  = (mkSession (bound_before f raw_text (vars s)) (stdout s) w', Raise e).
Proof.
  destruct f; simpl; intros Hraise.
  - unfold load_table. by apply cbind_Raise, call_Raise.
  - unfold fetch_page. by apply cbind_Raise, call_Raise.
  - unfold vectorize. rewrite !cbind_assign.
    unfold cbind, call. cbn [world vars stdout]. by rewrite Hraise.
  - unfold kmeans_top_terms. rewrite !cbind_assign.
    unfold cbind, call. cbn [world vars stdout]. by rewrite Hraise.
Qed.

(** In the sweep a fit that raises at [k], after the fits before it, ends
    the cell with the scores gathered so far still in [scores]. *)
Lemma sweep_fault_keeps_scores (X : Features) (s s1 : session) (k : nat)
    (w' : World) (e : exn) :
  2 <= k < 20 ->
  for_each (range 2 k) (sweep_step X)
    (mkSession (<["scores" := VScores []]>
                  (<["k_range" := VRange 2 20]> (vars s)))
       (stdout s) (world s)) = (s1, Ok tt) ->
  KMeans_fit k default_max_iter X (world s1) = (w', Raise e) ->
  sweep X s
  = (mkSession (<["kmeans" := VKMeans k default_max_iter None]> (vars s1))
       (stdout s1) w', Raise e).
Proof.
  intros Hk Hbefore Hfit. unfold sweep. rewrite !cbind_assign.
  apply cbind_Raise.
  assert (range 2 20 = range 2 k ++ k :: range (S k) 20) as ->.
  { unfold range. replace (20 - 2) with ((k - 2) + S (20 - S k)) by lia.
    rewrite seq_app. replace (2 + (k - 2)) with k by lia.
    replace (20 - S k) with (19 - k) by lia. reflexivity. }
  rewrite for_each_app, (cbind_Ok _ _ _ _ _ Hbefore). simpl.
  apply cbind_Raise. unfold sweep_step. rewrite cbind_assign.
  unfold cbind, call. cbn [world vars stdout]. by rewrite Hfit.
Qed.

(** [requests.get] does not raise on an HTTP error status, and cell 24 never
    reads the status: whatever it is, the cell goes on with the body. *)
Lemma fetch_page_ignores_status (s : session) (w : World) (r : Response) :
  requests_get poznan_url (world s) = (w, Ok r) ->
  fetch_page s
  = (let* soup := call (BeautifulSoup (text r) "html") in
     assign "soup" (VSoup soup) ;>
     assign "page" (VStrs (paragraph_texts soup)) ;>
     assign "raw_text" (VStr (raw_text_of (paragraph_texts soup))) ;>
     print (VStr (Py.slice_to 1000 (raw_text_of (paragraph_texts soup)))))
      (mkSession (<["respond" := VResponse r]> (vars s)) (stdout s) w).
Proof.
  intros Hget. unfold fetch_page.
  rewrite (cbind_Ok _ _ s (mkSession (vars s) (stdout s) w) r).
  - by rewrite cbind_assign.
  - unfold call. by rewrite Hget.
Qed.

End Cells.

(** *** A small instance of the libraries *)

(** The world counts the draws of the random generator; a feature matrix is
    a list of points and a parsed page the list of its paragraphs. There is
    no file and no network; the vectorizer finds no term; k-means wants as
    many points as clusters. *)
Definition toy_fit (k max_iter : nat) (X : list vec) (w : nat)
    : nat * result KMeansModel :=
  if (length X <? k) then
    (w, Raise (ValueError "n_samples should be >= n_clusters"))
  else
    (S w, Ok (mkKMeans (take k X)
                ((fun i => Z.of_nat (i mod k)) <$> seq 0 (length X)))).

Definition toy_silhouette (X : list vec) (labels : list Z) (m : metric)
    (w : nat) : nat * result Q :=
  (w, Ok (1 # Pos.of_nat (length (np_unique labels)))).

Global Instance toy_libraries : Libraries nat Z (list vec) (list Py.pystr) := {|
  read_table := fun path w => (w, Raise (LibraryFault "FileNotFoundError"));
  requests_get := fun url w => (w, Raise (LibraryFault "ConnectionError"));
  BeautifulSoup := fun markup features w => (w, Ok [markup]);
  paragraph_texts := fun soup => soup;
  fit_transform := fun docs w => (w, Raise (ValueError "empty vocabulary"));
  todense := fun X => VFloats (mjoin X);
  get_stop_words := [Py.u "the"; Py.u "a"];
  KMeans_fit := toy_fit;
  silhouette_score := toy_silhouette;
  plot_scores := fun ticks xs ys w => (w, Ok tt)
|}.

Definition blobs : list vec := (fun i => [inject_Z (Z.of_nat i)]) <$> seq 0 20.

Definition fresh : session nat Z (list vec) (list Py.pystr) :=
  mkSession ∅ [] 0.

Example sweep_blobs_scores :
  (vars (sweep blobs fresh).1 !! "scores")
  = Some (VScores ((fun k => (k, 1 # Pos.of_nat k)) <$> seq 2 18)).
Proof. by vm_compute. Qed.

Lemma sweep_scores_each_k_once_witness :
  exists scores,
    vars (sweep blobs fresh).1 !! "scores" = Some (VScores scores)
    /\ length scores = 18
    /\ scores.*1 = [2; 3; 4; 5; 6; 7; 8; 9; 10; 11; 12; 13; 14; 15; 16; 17;
                    18; 19]
    /\ Forall (fun entry => scored blobs entry.1 entry.2) scores.
Proof.
  apply (sweep_scores_each_k_once blobs fresh).
  apply Forall_forall. intros k Hk%elem_of_seq. split.
  - intros w. simpl. unfold toy_fit.
    assert ((length blobs <? k) = false) as ->.
    { apply Nat.ltb_ge. change (length blobs) with 20. lia. }
    by eexists _, _.
  - intros w w1 model _. by eexists _, _.
Defined.

Definition three_points : list vec := [[0]; [1]; [2]]%Q.

Lemma faults_leave_the_cell_witness :
  failing_cell MissingFile [] three_points [] fresh
    = (fresh, Raise (LibraryFault "FileNotFoundError"))
  /\ failing_cell FetchFailed [] three_points [] fresh
    = (fresh, Raise (LibraryFault "ConnectionError"))
  /\ failing_cell EmptyVocabulary (Py.u "a.") three_points [] fresh
    = (mkSession
         (<["vectorizer" := VVectorizer None]>
            (<["phrases" := VStrs [Py.u "a"; Py.u ""]]> ∅)) [] 0,
       Raise (ValueError "empty vocabulary"))
  /\ failing_cell TooManyClusters [] three_points [] fresh
    = (mkSession
         (<["model" := VKMeans 10 1000 None]>
            (<["num_words" := VInt 5]> (<["true_k" := VInt 10]> ∅))) [] 0,
       Raise (ValueError "n_samples should be >= n_clusters")).
Proof.
  split; [|split; [|split]].
  - apply (faults_leave_the_cell MissingFile [] three_points [] fresh).
    reflexivity.
  - apply (faults_leave_the_cell FetchFailed [] three_points [] fresh).
    reflexivity.
  - apply (faults_leave_the_cell EmptyVocabulary (Py.u "a.") three_points []
             fresh).
    reflexivity.
  - apply (faults_leave_the_cell TooManyClusters [] three_points [] fresh).
    reflexivity.
Defined.

(** * Further properties of the cells *)

(** ** Phrases (cell 26) *)

(** The number of times [c] occurs in [s]. *)
Definition occurrences (c : Py.pychar) (s : Py.pystr) : nat :=
  length (List.filter (N.eqb c) s).

Lemma length_split_sep sep s :
  length (Py.split_sep sep s) = S (occurrences sep s).
Proof.
  unfold occurrences. induction s as [|c s IH]; simpl; [done|].
  case_decide as Hc.
  - subst c. rewrite N.eqb_refl. simpl. by rewrite IH.
  - assert ((sep =? c)%N = false) as -> by (apply N.eqb_neq; congruence).
    pose proof (split_sep_nonempty sep s) as Hne.
    destruct (Py.split_sep sep s); [done|]. simpl in *. done.
Qed.

Lemma occurrences_replace_other c old s :
  c <> old -> occurrences c (Py.replace old [] s) = occurrences c s.
Proof.
  intros Hne. unfold occurrences, Py.replace.
  induction s as [|x s IH]; [done|].
  rewrite bind_cons. case_decide as Hx; simpl.
  - subst x. by assert ((c =? old)%N = false) as -> by by apply N.eqb_neq.
  - destruct (c =? x)%N; simpl; by rewrite IH.
Qed.

Lemma replace_app old new s t :
  Py.replace old new (s ++ t) = Py.replace old new s ++ Py.replace old new t.
Proof. unfold Py.replace. apply bind_app. Qed.

Lemma split_sep_snoc sep s :
  Py.split_sep sep (s ++ [sep]) = Py.split_sep sep s ++ [[]].
Proof.
  induction s as [|c s IH]; simpl.
  - by rewrite decide_True.
  - case_decide; rewrite IH; [done|].
    pose proof (split_sep_nonempty sep s) as Hne.
    by destruct (Py.split_sep sep s).
Qed.

(** X1. There is one phrase more than there are periods in the scraped
    text: the list of phrases is never empty, and a text without a period is
    a single phrase. *)
Theorem phrases_count (raw_text : Py.pystr) :
  length (phrases_of raw_text) = S (occurrences Py.DOT raw_text).
Proof.
  unfold phrases_of, strip_newlines.
  by rewrite length_split_sep, occurrences_replace_other.
Qed.

(** X2. A text that ends with a period gives a last phrase that is empty:
    the vectorizer and the length filter see one empty document more than
    there are sentences. *)
Theorem phrases_trailing_empty (raw_text : Py.pystr) :
  phrases_of (raw_text ++ [Py.DOT]) = phrases_of raw_text ++ [[]].
Proof.
  unfold phrases_of, strip_newlines. rewrite replace_app.
  change (Py.replace Py.NL [] [Py.DOT]) with [Py.DOT].
  apply split_sep_snoc.
Qed.

(** ** Words (cells 26, 31 and 32) *)

Definition nonspace (s : Py.pystr) : Prop :=
  Forall (fun c => Py.isspace c = false) s.






Lemma elem_of_replace c old new s :
  c ∈ Py.replace old new s -> c ∈ new \/ (c <> old /\ c ∈ s).
Proof.
  unfold Py.replace. intros (x & Hc & Hx)%list_elem_of_bind.
  case_decide as Hold; [by left|].
  apply list_elem_of_singleton in Hc. subst x. by right.
Qed.

Lemma split_ws_from_tokens cur s :
  nonspace cur ->
  Forall (fun t => t <> [] /\ nonspace t /\ Forall (fun c => c ∈ cur \/ c ∈ s) t)
    (Py.split_ws_from cur s).
Proof.
  revert cur. induction s as [|c s IH]; intros cur Hcur; simpl.
  - destruct cur as [|x cur]; [constructor|].
    constructor; [|constructor]. split; [|split].
    + rewrite reverse_cons. by destruct (reverse cur).
    + unfold nonspace. by rewrite Forall_reverse.
    + apply Forall_forall. intros y Hy. rewrite elem_of_reverse in Hy. by left.
  - assert (Hlater : forall cur',
              nonspace cur' -> (forall y, y ∈ cur' -> y ∈ cur \/ y ∈ c :: s) ->
              Forall (fun t => t <> [] /\ nonspace t
                               /\ Forall (fun y => y ∈ cur \/ y ∈ c :: s) t)
                (Py.split_ws_from cur' s)).
    { intros cur' Hcur' Hsub. eapply Forall_impl; [by apply IH|].
      intros t (Hne & Hns & Hin). split; [done|]. split; [done|].
      eapply Forall_impl; [exact Hin|]. intros y [Hy|Hy]; [by apply Hsub|].
      right. by right. }
    destruct (Py.isspace c) eqn:Hc.
    + destruct cur as [|x cur].
      * apply Hlater; [constructor|]. by intros y ?%not_elem_of_nil.
      * constructor.
        -- split; [|split].
           ++ rewrite reverse_cons. by destruct (reverse cur).
           ++ unfold nonspace. by rewrite Forall_reverse.
           ++ apply Forall_forall. intros y Hy. rewrite elem_of_reverse in Hy. by left.
        -- apply Hlater; [constructor|]. by intros y ?%not_elem_of_nil.
    + apply Hlater; [by constructor|].
      intros y [->|Hy]%elem_of_cons; [right; by left|by left].
Qed.

Lemma split_ws_from_dot_led s cur :
  (Py.DOT ∉ drop 1 (reverse cur)) ->
  Forall (fun t => Py.DOT ∉ drop 1 t)
    (Py.split_ws_from cur (Py.replace Py.DOT [Py.SPACE; Py.DOT] s)).
Proof.
  revert cur. induction s as [|c s IH]; intros cur Hcur.
  - simpl. destruct cur; [constructor|]. by repeat constructor.
  - unfold Py.replace. rewrite bind_cons. fold (Py.replace Py.DOT [Py.SPACE; Py.DOT] s).
    case_decide as Hc.
    + subst c. cbn [app Py.split_ws_from].
      change (Py.isspace Py.SPACE) with true.
      change (Py.isspace Py.DOT) with false. cbv iota.
      assert (Forall (fun t => Py.DOT ∉ drop 1 t)
                (Py.split_ws_from [Py.DOT]
                   (Py.replace Py.DOT [Py.SPACE; Py.DOT] s))) as Hrest.
      { apply IH. simpl. apply not_elem_of_nil. }
      destruct cur; [done|]. by constructor.
    + cbn [app Py.split_ws_from]. destruct (Py.isspace c).
      * assert (Forall (fun t => Py.DOT ∉ drop 1 t)
                  (Py.split_ws_from []
                     (Py.replace Py.DOT [Py.SPACE; Py.DOT] s))) as Hrest.
        { apply IH. simpl. apply not_elem_of_nil. }
        destruct cur; [done|]. by constructor.
      * apply IH. rewrite reverse_cons. destruct (reverse cur) as [|x r] eqn:E.
        -- simpl. apply not_elem_of_nil.
        -- simpl in *. intros [Hin|Hin]%elem_of_app; [done|].
           apply list_elem_of_singleton in Hin. congruence.
Qed.

(** X4. Every word cell 32 hands to the language model is a non-empty run
    of characters with no white space, comma or parenthesis in it, and a
    period can only be its first character. *)
Theorem words_are_clean (raw_text : Py.pystr) :
  Forall (fun word =>
      word <> []
      /\ Forall (fun c => Py.isspace c = false /\ c <> Py.COMMA
                          /\ c <> Py.LPAREN /\ c <> Py.RPAREN /\ c <> Py.NL)
           word
      /\ (Py.DOT ∉ drop 1 word))
    (Py.split (spaced_text raw_text)).
Proof.
  pose proof (split_ws_from_tokens [] (spaced_text raw_text)) as Htok.
  pose proof (split_ws_from_dot_led
                (Py.replace Py.NL []
                   (Py.replace Py.RPAREN [Py.SPACE]
                      (Py.replace Py.LPAREN [Py.SPACE]
                         (Py.replace Py.COMMA [Py.SPACE] raw_text)))) []) as Hdot.
  fold (spaced_text raw_text) in Hdot. fold (Py.split (spaced_text raw_text)) in *.
  apply Forall_and. split.
  { eapply Forall_impl; [apply Htok; constructor|]. by intros t (? & _). }
  apply Forall_and. split; [|apply Hdot; simpl; apply not_elem_of_nil].
  eapply Forall_impl; [apply Htok; constructor|].
  intros t (_ & Hns & Hin). cbv beta.
  apply Forall_forall. intros c Hc.
  pose proof (proj1 (Forall_forall _ _) Hns c Hc) as Hsp.
  pose proof (proj1 (Forall_forall _ _) Hin c Hc) as [Hnil|Htext];
    [by apply not_elem_of_nil in Hnil|].
  split; [done|].
  assert (c <> Py.NL) as Hnl by (intros ->; by vm_compute in Hsp).
  unfold spaced_text in Htext.
  apply elem_of_replace in Htext as [Hnew|[Hd Htext]].
  { apply elem_of_cons in Hnew as [->|Hnew]; [by vm_compute in Hsp|].
    apply list_elem_of_singleton in Hnew as ->. by repeat split. }
  apply elem_of_replace in Htext as [Hnew|[_ Htext]];
    [by apply not_elem_of_nil in Hnew|].
  apply elem_of_replace in Htext as [Hnew|[Hr Htext]].
  { apply list_elem_of_singleton in Hnew as ->. by vm_compute in Hsp. }
  apply elem_of_replace in Htext as [Hnew|[Hl Htext]].
  { apply list_elem_of_singleton in Hnew as ->. by vm_compute in Hsp. }
  apply elem_of_replace in Htext as [Hnew|[Hcm Htext]].
  { apply list_elem_of_singleton in Hnew as ->. by vm_compute in Hsp. }
  done.
Qed.

(** The mapping from key to vector (not the order of the keys) is the same
    for two iterations over the same words, provided that words with the same
    lowercase form and a vector that is not all zero have the same vector. *)
Theorem words_independent_of_order
    (lower : Py.pystr -> Py.pystr) (nlp_vector : Py.pystr -> vec)
    (ws ws' : list Py.pystr) :
  (forall w, w ∈ ws <-> w ∈ ws') ->
  (forall w1 w2, w1 ∈ ws -> w2 ∈ ws -> lower w1 = lower w2 ->
     np_any (nlp_vector w1) = true -> np_any (nlp_vector w2) = true ->
     nlp_vector w1 = nlp_vector w2) ->
  words_from lower nlp_vector ws = words_from lower nlp_vector ws'.
Proof.
  intros Hsame Hcompat. apply map_eq. intros k.
  destruct (words_from lower nlp_vector ws !! k) as [v|] eqn:Hk;
    destruct (words_from lower nlp_vector ws' !! k) as [v'|] eqn:Hk'; [| | |done].
  - apply words_from_lookup in Hk as (w & Hw & -> & -> & Hany).
    apply words_from_lookup in Hk' as (w' & Hw' & Hlow & -> & Hany').
    f_equal. apply Hcompat; [done|by apply Hsame|done..].
  - apply words_from_lookup in Hk as (w & Hw & -> & -> & Hany).
    destruct (words_from_key lower nlp_vector ws' w) as [? Hsome];
      [by apply Hsame|done|congruence].
  - apply words_from_lookup in Hk' as (w' & Hw' & -> & -> & Hany').
    destruct (words_from_key lower nlp_vector ws w') as [? Hsome];
      [by apply Hsame|done|congruence].
Qed.

Lemma words_independent_of_order_witness :
  words_from lower_ascii short_nlp
    [Py.u "a"; Py.u "bb"; Py.u "cc"; Py.u "a"; Py.u "."]
  = words_from lower_ascii short_nlp
      [Py.u "."; Py.u "cc"; Py.u "bb"; Py.u "a"].
Proof.
  apply words_independent_of_order.
  - intros w. rewrite !elem_of_cons, !elem_of_nil. tauto.
  - intros w1 w2 Hw1 Hw2 Hlow H1 H2.
    rewrite !elem_of_cons, elem_of_nil in Hw1, Hw2.
    destruct Hw1 as [->| [->| [->| [->| [->|[]]]]]];
      destruct Hw2 as [->| [->| [->| [->| [->|[]]]]]];
      first [reflexivity | by vm_compute in Hlow | by vm_compute in H1
            | by vm_compute in H2].
Defined.

(** ** The sentence matrix (cell 34) *)

Lemma mean_operands_agree (words words' : gmap Py.pystr vec) phrase :
  (forall c, words !! [c] = words' !! [c]) ->
  mean_operands words phrase = mean_operands words' phrase.
Proof.
  intros Hagree. unfold mean_operands.
  apply list_bind_ext; [|done]. intros c. by rewrite Hagree.
Qed.

Lemma sentence_rows_agree (words words' : gmap Py.pystr vec) phrases :
  (forall c, words !! [c] = words' !! [c]) ->
  sentence_rows words phrases = sentence_rows words' phrases.
Proof.
  intros Hagree. induction phrases as [|phrase rest IH]; [done|].
  simpl. unfold sentence_row.
  by rewrite IH, (mean_operands_agree words words' phrase Hagree).
Qed.

(** X6. Only the keys that are one character long can reach the sentence
    matrix: dropping every other key from the dictionary leaves the matrix
    (or the exception) as it is. The vector of a word of two or more
    characters is never averaged. *)
Theorem sentence_matrix_uses_one_character_keys
    (words : gmap Py.pystr vec) (phrases : list Py.pystr) :
  sentence_matrix words phrases
  = sentence_matrix (filter (fun kv => length kv.1 = 1) words) phrases.
Proof.
  unfold sentence_matrix. f_equal. apply sentence_rows_agree.
  intros c. rewrite map_lookup_filter.
  by destruct (words !! [c]) as [v|].
Qed.

Lemma sentence_rows_none_long (words : gmap Py.pystr vec) phrases :
  Forall (fun phrase => long_enough phrase = false) phrases ->
  sentence_rows words phrases = Ok [].
Proof.
  induction 1 as [|phrase rest Hp _ IH]; [done|]. simpl. by rewrite Hp.
Qed.

(** X7. When no phrase has five words, the comprehension is empty and
    [np.vstack] raises: cell 34 ends with a [ValueError] and binds no [X]. *)
Theorem sentence_matrix_of_short_phrases
    (words : gmap Py.pystr vec) (phrases : list Py.pystr) :
  Forall (fun phrase => long_enough phrase = false) phrases ->
  sentence_matrix words phrases
  = Raise (ValueError "need at least one array to concatenate").
Proof.
  intros Hshort. unfold sentence_matrix.
  by rewrite sentence_rows_none_long.
Qed.

Lemma sentence_matrix_of_short_phrases_witness :
  sentence_matrix short_words
    (phrases_of (Py.u "Poznan is a city. It is old."))
  = Raise (ValueError "need at least one array to concatenate").
Proof.
  apply sentence_matrix_of_short_phrases.
  apply (bool_decide_unpack _). by vm_compute.
Defined.

Lemma mean_operands_dim (d : nat) (words : gmap Py.pystr vec) phrase :
  map_Forall (fun _ v => length v = d) words ->
  Forall (fun v => length v = d) (mean_operands words phrase).
Proof.
  intros Hdim. rewrite mean_operands_omap. apply Forall_forall.
  intros v (c & _ & Hv)%list_elem_of_omap. by apply (Hdim [c]).
Qed.

Lemma sentence_row_total (d : nat) (words : gmap Py.pystr vec) phrase :
  map_Forall (fun _ v => length v = d) words ->
  (mean_operands words phrase = [] /\ sentence_row words phrase = Ok Nan0)
  \/ (exists v, sentence_row words phrase = Ok (Arr1 v) /\ length v = d).
Proof.
  intros Hdim. unfold sentence_row.
  destruct (mean_operands words phrase) as [|v vs] eqn:Hops; [by left|].
  right. apply np_mean_axis0_defined; [done|].
  rewrite <- Hops. by apply mean_operands_dim.
Qed.

Lemma sentence_rows_total (d : nat) (words : gmap Py.pystr vec) phrases :
  map_Forall (fun _ v => length v = d) words ->
  exists rows,
    sentence_rows words phrases = Ok rows
    /\ Forall2 (fun phrase a => sentence_row words phrase = Ok a)
         (List.filter long_enough phrases) rows.
Proof.
  intros Hdim.
  assert (exists rows, sentence_rows words phrases = Ok rows) as [rows Hrows].
  { induction phrases as [|phrase rest [rows IH]]; [by exists []|].
    simpl. destruct (long_enough phrase); [|by exists rows].
    destruct (sentence_row_total d words phrase Hdim)
      as [[_ ->]|(v & -> & _)]; simpl; rewrite IH; simpl; by eexists. }
  exists rows. split; [done|]. by apply sentence_rows_inv.
Qed.

Lemma np_vstack_mixed arrs a b :
  a ∈ arrs -> b ∈ arrs ->
  length (atleast_2d a) <> length (atleast_2d b) ->
  np_vstack arrs
  = Raise (ValueError "all the input array dimensions except for the concatenation axis must match exactly").
Proof.
  intros Ha Hb Hne. destruct arrs as [|x rest]; [by apply not_elem_of_nil in Ha|].
  unfold np_vstack.
  destruct (forallb _ rest) eqn:Hall; [|done]. exfalso.
  assert (forall y, y ∈ x :: rest ->
            length (atleast_2d y) = length (atleast_2d x)) as Hwidth.
  { intros y [->|Hy]%elem_of_cons; [done|].
    apply Nat.eqb_eq. rewrite forallb_forall in Hall.
    by apply Hall, list_elem_of_In. }
  apply Hne. by rewrite (Hwidth a Ha), (Hwidth b Hb).
Qed.

Lemma Forall2_elem_of_l {A B} (P : A -> B -> Prop) l k x :
  Forall2 P l k -> x ∈ l -> exists y, y ∈ k /\ P x y.
Proof.
  induction 1 as [|x' y' l k Hxy _ IH]; [by intros ?%not_elem_of_nil|].
  intros [->|Hx]%elem_of_cons.
  - exists y'. split; [by left|done].
  - destruct (IH Hx) as (y & Hy & HP). exists y. split; [by right|done].
Qed.

Lemma Forall2_elem_of_r {A B} (P : A -> B -> Prop) l k y :
  Forall2 P l k -> y ∈ k -> exists x, x ∈ l /\ P x y.
Proof.
  induction 1 as [|x' y' l k Hxy _ IH]; [by intros ?%not_elem_of_nil|].
  intros [->|Hy]%elem_of_cons.
  - exists x'. split; [by left|done].
  - destruct (IH Hy) as (x & Hx & HP). exists x. split; [by right|done].
Qed.

Lemma elem_of_long_phrases phrase phrases :
  phrase ∈ phrases -> long_enough phrase = true ->
  phrase ∈ List.filter long_enough phrases.
Proof.
  intros Hin Hlong. apply list_elem_of_In, filter_In.
  by rewrite <- list_elem_of_In.
Qed.

(** X8. When the vectors have a dimension other than one and, among the
    phrases of five words or more, one has a character that is a key and
    another has none, the rows have different widths and [np.vstack] raises:
    one phrase without a known character is enough to lose the matrix. *)
Theorem sentence_matrix_mixed_rows
    (d : nat) (words : gmap Py.pystr vec) (phrases : list Py.pystr)
    (known unknown : Py.pystr) :
  d <> 1 ->
  map_Forall (fun _ v => length v = d) words ->
  known ∈ phrases -> long_enough known = true ->
  Exists (fun c => is_Some (words !! [c])) known ->
  unknown ∈ phrases -> long_enough unknown = true ->
  Forall (fun c => words !! [c] = None) unknown ->
  sentence_matrix words phrases
  = Raise (ValueError "all the input array dimensions except for the concatenation axis must match exactly").
Proof.
  intros Hd Hdim Hk Hklong Hkey Hu Hulong Hnone.
  destruct (sentence_rows_total d words phrases Hdim) as (rows & Hrows & Hall).
  unfold sentence_matrix. rewrite Hrows. simpl.
  destruct (Forall2_elem_of_l _ _ _ known Hall) as (a & Ha & Hrow_a);
    [by apply elem_of_long_phrases|].
  destruct (Forall2_elem_of_l _ _ _ unknown Hall) as (b & Hb & Hrow_b);
    [by apply elem_of_long_phrases|].
  destruct (sentence_row_defined d words known Hdim Hkey) as (v & Hv & Hlen).
  assert (a = Arr1 v) as -> by congruence.
  assert (b = Nan0) as ->.
  { unfold sentence_row in Hrow_b.
    rewrite (mean_operands_no_key words unknown Hnone) in Hrow_b.
    simpl in Hrow_b. congruence. }
  apply (np_vstack_mixed rows (Arr1 v) Nan0 Ha Hb).
  simpl. rewrite length_fmap. lia.
Qed.

Definition pair_nlp (word : Py.pystr) : vec :=
  if decide (word = Py.u "a") then [2; 1]%Q else [0; 0]%Q.

Definition pair_words : gmap Py.pystr vec :=
  words_from lower_ascii pair_nlp [Py.u "a"; Py.u "big"; Py.u "city"].

Lemma sentence_matrix_mixed_rows_witness :
  sentence_matrix pair_words
    [Py.u "a big city on a river"; Py.u "it is 1 of the 5"]
  = Raise (ValueError "all the input array dimensions except for the concatenation axis must match exactly").
Proof.
  apply (sentence_matrix_mixed_rows 2 pair_words _
           (Py.u "a big city on a river") (Py.u "it is 1 of the 5")).
  - lia.
  - intros k v Hk. destruct (decide (k = Py.u "a")) as [->|Hne].
    + vm_compute in Hk. by injection Hk as <-.
    + unfold pair_words, words_from in Hk. simpl in Hk.
      unfold words_step in Hk. simpl in Hk.
      rewrite lookup_insert_ne in Hk by done. by rewrite lookup_empty in Hk.
  - by left.
  - reflexivity.
  - apply Exists_cons_hd. exists [2; 1]%Q. by vm_compute.
  - right. by left.
  - reflexivity.
  - by apply (bool_decide_unpack _).
Defined.

Lemma sentence_rows_all_nan (words : gmap Py.pystr vec) phrases :
  Forall (fun phrase =>
      long_enough phrase = true ->
      Forall (fun c => words !! [c] = None) phrase) phrases ->
  sentence_rows words phrases
  = Ok (replicate (length (List.filter long_enough phrases)) Nan0).
Proof.
  induction 1 as [|phrase rest Hp _ IH]; [done|]. simpl.
  destruct (long_enough phrase) eqn:Hlong; [|done].
  unfold sentence_row. rewrite (mean_operands_no_key _ _ (Hp eq_refl)).
  simpl. by rewrite IH.
Qed.

(** X9. When no phrase of five words or more has a character that is a key
    (an empty dictionary, say) and there is such a phrase, every mean is taken
    over nothing and the matrix is a single column of [nan], one per phrase of
    five words or more. *)
Theorem sentence_matrix_all_nan
    (words : gmap Py.pystr vec) (phrases : list Py.pystr) :
  Forall (fun phrase =>
      long_enough phrase = true ->
      Forall (fun c => words !! [c] = None) phrase) phrases ->
  Exists (fun phrase => long_enough phrase = true) phrases ->
  sentence_matrix words phrases
  = Ok (replicate (length (List.filter long_enough phrases)) [nan]).
Proof.
  intros Hnone Hsome. unfold sentence_matrix.
  rewrite (sentence_rows_all_nan _ _ Hnone). simpl.
  destruct (List.filter long_enough phrases) as [|p ps] eqn:Hlong.
  - exfalso. apply Exists_exists in Hsome as (phrase & Hin & Hl).
    pose proof (elem_of_long_phrases _ _ Hin Hl) as Hin'.
    rewrite Hlong in Hin'. by apply not_elem_of_nil in Hin'.
  - simpl.
    assert (forallb (fun b => length (atleast_2d b) =? 1)
              (replicate (length ps) Nan0) = true) as ->.
    { apply forallb_forall. by intros b [-> _]%list_elem_of_In%elem_of_replicate. }
    by rewrite fmap_replicate.
Qed.

Lemma sentence_matrix_all_nan_witness :
  sentence_matrix ∅
    (phrases_of (Py.u "Poznan is a city on the Warta. It is old."))
  = Ok [[nan]].
Proof.
  apply (sentence_matrix_all_nan ∅
           (phrases_of (Py.u "Poznan is a city on the Warta. It is old."))).
  - apply Forall_forall. intros phrase _ _.
    apply Forall_forall. intros c _. apply lookup_empty.
  - apply Exists_cons_hd. reflexivity.
Defined.

(** X10. Under the conditions that make the matrix exist (vectors of one
    dimension [d], a key character in every phrase of five words or more, one
    such phrase at least) its shape is (number of such phrases, [d]) and no
    entry is [nan]. *)
Theorem sentence_matrix_shape
    (d : nat) (words : gmap Py.pystr vec) (phrases : list Py.pystr) :
  map_Forall (fun _ v => length v = d) words ->
  Forall (fun phrase =>
      long_enough phrase = true ->
      Exists (fun c => is_Some (words !! [c])) phrase) phrases ->
  Exists (fun phrase => long_enough phrase = true) phrases ->
  exists X,
    sentence_matrix words phrases = Ok X
    /\ length X = length (List.filter long_enough phrases)
    /\ Forall (fun row => length row = d /\ (nan ∉ row)) X.
Proof.
  intros Hdim Hkeys Hsome.
  destruct (sentence_rows_total d words phrases Hdim) as (rows & Hrows & Hall).
  assert (Hvec : Forall (fun a => exists v, a = Arr1 v /\ length v = d) rows).
  { apply Forall_forall. intros a Ha.
    destruct (Forall2_elem_of_r _ _ _ a Hall Ha) as (phrase & Hin & Hrow).
    apply list_elem_of_In, filter_In in Hin as [Hin Hlong].
    apply list_elem_of_In in Hin.
    destruct (sentence_row_defined d words phrase Hdim) as (v & Hv & Hlen).
    { by apply (proj1 (Forall_forall _ _) Hkeys). }
    exists v. split; [congruence|done]. }
  assert (Hne : rows <> []).
  { intros ->. apply Forall2_length in Hall. simpl in Hall.
    apply Exists_exists in Hsome as (phrase & Hin & Hl).
    pose proof (elem_of_long_phrases _ _ Hin Hl) as Hin'.
    destruct (List.filter long_enough phrases); [|done].
    by apply not_elem_of_nil in Hin'. }
  exists (atleast_2d <$> rows). split.
  { unfold sentence_matrix. rewrite Hrows. simpl.
    apply (np_vstack_defined d); [done|].
    eapply Forall_impl; [exact Hvec|]. intros a (v & -> & Hlen). simpl.
    by rewrite length_fmap. }
  split; [by rewrite length_fmap, (Forall2_length _ _ _ Hall)|].
  rewrite Forall_fmap. eapply Forall_impl; [exact Hvec|].
  intros a (v & -> & Hlen). simpl. rewrite length_fmap. split; [done|].
  by intros (x & ? & _)%list_elem_of_fmap.
Qed.

Lemma sentence_matrix_shape_witness :
  exists X,
    sentence_matrix pair_words [Py.u "a big city on a river"; Py.u "it is old"]
    = Ok X
    /\ length X = 1
    /\ Forall (fun row => length row = 2 /\ (nan ∉ row)) X.
Proof.
  apply (sentence_matrix_shape 2 pair_words
           [Py.u "a big city on a river"; Py.u "it is old"]).
  - intros k v Hk. destruct (decide (k = Py.u "a")) as [->|Hne].
    + vm_compute in Hk. by injection Hk as <-.
    + unfold pair_words, words_from in Hk. simpl in Hk.
      unfold words_step in Hk. simpl in Hk.
      rewrite lookup_insert_ne in Hk by done. by rewrite lookup_empty in Hk.
  - apply Forall_cons; split;
      [intros _; apply Exists_cons_hd; exists [2; 1]%Q; by vm_compute|].
    apply Forall_cons; split; [intros Hlong; by vm_compute in Hlong|].
    by apply Forall_nil.
  - apply Exists_cons_hd. reflexivity.
Defined.

(** *** Rearranging the characters of a phrase *)

(** A pipeline with a vector for two one-letter words. *)
Definition vowel_nlp (word : Py.pystr) : vec :=
  if decide (word = Py.u "a") then [2; 1]%Q
  else if decide (word = Py.u "i") then [0; 3]%Q
  else [0; 0]%Q.

Definition vowel_words : gmap Py.pystr vec :=
  words_from lower_ascii vowel_nlp [Py.u "a"; Py.u "big"; Py.u "i"].

(** X11. The vectors averaged for a phrase depend only on which characters
    it has and how often: two phrases made of the same characters, each as
    many times, hand [np.mean] the same vectors, each as many times, in
    possibly another order. *)
Theorem sentence_operands_ignore_character_order
    (words : gmap Py.pystr vec) (phrase phrase' : Py.pystr) :
  phrase ≡ₚ phrase' ->
  mean_operands words phrase ≡ₚ mean_operands words phrase'
  /\ length (mean_operands words phrase)
     = length (mean_operands words phrase').
Proof.
  intros Hperm.
  assert (mean_operands words phrase ≡ₚ mean_operands words phrase') as Hops.
  { rewrite !mean_operands_omap. by rewrite Hperm. }
  split; [done|]. by apply Permutation_length.
Qed.

Lemma sentence_operands_ignore_character_order_witness :
  mean_operands vowel_words (Py.u "a big city")
  ≡ₚ mean_operands vowel_words (reverse (Py.u "a big city"))
  /\ length (mean_operands vowel_words (Py.u "a big city"))
     = length (mean_operands vowel_words (reverse (Py.u "a big city"))).
Proof.
  apply (sentence_operands_ignore_character_order vowel_words).
  symmetry. apply reverse_Permutation.
Defined.

Example vowel_operands :
  mean_operands vowel_words (Py.u "a big city") = [[2; 1]; [0; 3]; [0; 3]]%Q
  /\ mean_operands vowel_words (reverse (Py.u "a big city"))
     = [[0; 3]; [0; 3]; [2; 1]]%Q.
Proof. split; by vm_compute. Qed.

(** ** The printing loops (cells 40 and 44) *)

(** What the loop prints for one cluster. *)
Definition cluster_block (items : list Py.pystr) (labels : list Z) (c : Z)
    : list line :=
  [Header c; Members (omap (fun i => items !! i) (np_where_eq labels c))].

Lemma rmap_getitem_cases {A} (items : list A) (idxs : list nat) :
  (Forall (fun i => i < length items) idxs
   /\ rmap (getitem items) idxs = Ok (omap (fun i => items !! i) idxs))
  \/ (~ Forall (fun i => i < length items) idxs
      /\ rmap (getitem items) idxs = Raise IndexError).
Proof.
  induction idxs as [|i idxs IH]; [left; by split|].
  simpl. unfold getitem at 1 3.
  destruct (items !! i) as [x|] eqn:Hi; simpl.
  - apply lookup_lt_Some in Hi as Hlt.
    destruct IH as [[Hall ->]|[Hnot ->]]; simpl.
    + left. split; [by constructor|done].
    + right. split; [|done]. by intros [_ ?]%Forall_cons.
  - right. split; [|done]. intros [Hlt _]%Forall_cons.
    apply lookup_ge_None in Hi. lia.
Qed.

Lemma print_clusters_closed items labels ids out :
  (forall c, c ∈ ids -> (0 <= c)%Z ->
     Forall (fun i => i < length items) (np_where_eq labels c)) ->
  print_clusters items labels ids out
  = (out ++ (List.filter (fun c => (0 <=? c)%Z) ids
               ≫= cluster_block items labels), Ok tt).
Proof.
  revert out. induction ids as [|c rest IH]; intros out Hrange; simpl.
  - by rewrite app_nil_r.
  - assert (Hrest : forall c', c' ∈ rest -> (0 <= c')%Z ->
              Forall (fun i => i < length items) (np_where_eq labels c')).
    { intros c' Hc'. apply Hrange. by right. }
    destruct (Z.leb_spec 0 c) as [Hpos|Hneg]; [|by apply IH].
    destruct (rmap_getitem_cases items (np_where_eq labels c))
      as [[_ ->]|[Hnot _]].
    + rewrite IH by done. rewrite bind_cons. unfold cluster_block at 2.
      by rewrite <- !app_assoc.
    + destruct Hnot. apply Hrange; [by left|done].
Qed.

Lemma print_clusters_result items labels ids out :
  (print_clusters items labels ids out).2 = Ok tt
  /\ (forall c, c ∈ ids -> (0 <= c)%Z ->
        Forall (fun i => i < length items) (np_where_eq labels c))
  \/ (print_clusters items labels ids out).2 = Raise IndexError
     /\ (exists c, c ∈ ids /\ (0 <= c)%Z
                   /\ ~ Forall (fun i => i < length items)
                          (np_where_eq labels c)).
Proof.
  revert out. induction ids as [|c rest IH]; intros out; simpl.
  - left. split; [done|]. by intros c ?%not_elem_of_nil.
  - destruct (Z.leb_spec 0 c) as [Hpos|Hneg].
    + destruct (rmap_getitem_cases items (np_where_eq labels c))
        as [[Hall ->]|[Hnot ->]].
      * destruct (IH ((out ++ [Header c])
                        ++ [Members (omap (fun i => items !! i)
                                       (np_where_eq labels c))]))
          as [[-> Hrest]|[-> (c' & Hc' & Hpos' & Hnot)]].
        -- left. split; [done|]. by intros c' [->|Hc']%elem_of_cons; auto.
        -- right. split; [done|]. exists c'. split; [by right|done].
      * right. split; [done|]. exists c. split; [by left|done].
    + destruct (IH out) as [[-> Hrest]|[-> (c' & Hc' & Hpos' & Hnot)]].
      * left. split; [done|]. intros c' [->|Hc']%elem_of_cons; [lia|auto].
      * right. split; [done|]. exists c'. split; [by right|done].
Qed.





Lemma printed_block items labels ids (i : nat) (c : Z) (x : Py.pystr) :
  c ∈ ids -> labels !! i = Some c -> items !! i = Some x ->
  exists pre post ms,
    ids ≫= cluster_block items labels
    = pre ++ Header c :: Members ms :: post
    /\ x ∈ ms.
Proof.
  intros Hc Hi Hx. apply list_elem_of_split in Hc as (l1 & l2 & ->).
  rewrite bind_app, bind_cons.
  exists (l1 ≫= cluster_block items labels),
         (l2 ≫= cluster_block items labels),
         (omap (fun i => items !! i) (np_where_eq labels c)).
  split; [done|]. apply list_elem_of_omap. exists i.
  split; [by apply elem_of_np_where_eq|done].
Qed.



(** X13. The loop raises only [IndexError], and it does so exactly when
    some observation with a label that is not negative has an index beyond
    the items (labels left from another matrix, say); observations labelled
    with a negative number are never looked up. *)
Theorem print_raises_iff_member_out_of_range
    (items : list Py.pystr) (labels : list Z) :
  ((print_word_clusters items labels).2 = Ok tt
   \/ (print_word_clusters items labels).2 = Raise IndexError)
  /\ ((print_word_clusters items labels).2 = Ok tt
      <-> (forall i c, labels !! i = Some c -> (0 <= c)%Z ->
             i < length items)).
Proof.
  unfold print_word_clusters.
  destruct (print_clusters_result items labels (np_unique labels) [])
    as [[Hok Hrange]|[Hraise (c & Hc & Hpos & Hnot)]].
  - split; [by left|]. split; [|done]. intros _ i c Hi Hpos.
    assert (c ∈ np_unique labels) as Hc.
    { apply elem_of_np_unique. by apply list_elem_of_lookup_2 with i. }
    apply (proj1 (Forall_forall _ _) (Hrange c Hc Hpos)).
    by apply elem_of_np_where_eq.
  - split; [by right|]. rewrite Hraise. split; [done|].
    intros Hrange. destruct Hnot. apply Forall_forall.
    intros i Hi%elem_of_np_where_eq. by apply (Hrange i c).
Qed.

Lemma print_raises_iff_member_out_of_range_witness :
  (print_word_clusters [Py.u "the"] [0; -1; 0]%Z).2 = Raise IndexError
  /\ (print_word_clusters [Py.u "the"] [0; -1]%Z).2 = Ok tt.
Proof.
  split.
  - destruct (print_raises_iff_member_out_of_range [Py.u "the"] [0; -1; 0]%Z)
      as [[Hok|Hraise] Hiff]; [|done].
    pose proof (proj1 Hiff Hok 2 0%Z eq_refl) as Hlt. simpl in Hlt. lia.
  - apply (print_raises_iff_member_out_of_range [Py.u "the"] [0; -1]%Z).
    intros [|[|i]] c Hi Hpos; simpl in *; [lia| |done].
    injection Hi as <-. lia.
Defined.

(** X14. Cell 40 looks a row of the sentence matrix up in [phrases], where
    the phrases of fewer than five words still stand. So when the phrase at
    the index of a clustered row is such a short phrase, it is printed as a
    member of the cluster although it has no row in the matrix. *)
Theorem short_phrase_is_printed
    (phrases : list Py.pystr) (labels : list Z) (j : nat) (c : Z)
    (phrase : Py.pystr) :
  length labels = length (List.filter long_enough phrases) ->
  labels !! j = Some c -> (0 <= c)%Z ->
  phrases !! j = Some phrase -> long_enough phrase = false ->
  exists out pre post ms,
    print_sentence_clusters phrases labels = (out, Ok tt)
    /\ out = pre ++ Header c :: Members ms :: post
    /\ phrase ∈ ms
    /\ phrase ∉ List.filter long_enough phrases.
Proof.
  intros Hlen Hj Hpos Hphrase Hshort.
  pose proof (sublist_length _ _ (filter_sublist long_enough phrases)) as Hle.
  unfold print_sentence_clusters. rewrite print_clusters_closed.
  2:{ intros c' _ _. apply Forall_forall. intros i Hi%elem_of_np_where_eq.
      apply lookup_lt_Some in Hi. lia. }
  destruct (printed_block phrases labels
              (List.filter (fun c => (0 <=? c)%Z) (np_unique labels))
              j c phrase) as (pre & post & ms & Hout & Hin); [|done..|].
  { apply list_elem_of_In, filter_In. split.
    - apply list_elem_of_In, elem_of_np_unique.
      by apply list_elem_of_lookup_2 with j.
    - by apply Z.leb_le. }
  eexists _, pre, post, ms. split; [done|]. split; [by rewrite Hout|].
  split; [done|].
  intros [_ Hlong]%list_elem_of_In%filter_In. congruence.
Qed.

Lemma short_phrase_is_printed_witness :
  exists out pre post ms,
    print_sentence_clusters
      [Py.u "Trade"; Py.u "the town lies on a river"] [0]%Z = (out, Ok tt)
    /\ out = pre ++ Header 0 :: Members ms :: post
    /\ Py.u "Trade" ∈ ms
    /\ Py.u "Trade"
       ∉ List.filter long_enough [Py.u "Trade"; Py.u "the town lies on a river"].
Proof.
  apply (short_phrase_is_printed
           [Py.u "Trade"; Py.u "the town lies on a river"] [0]%Z 0 0%Z
           (Py.u "Trade")); reflexivity || lia.
Defined.

(** ** The word matrix (cells 42 and 44) *)

(** A [dict] keeps its keys in the order of their first insertion:
    [d[k] = v] replaces the value where [k] stands, or adds [k] at the end. *)
Fixpoint dict_set (k : Py.pystr) (v : vec) (d : list (Py.pystr * vec))
    : list (Py.pystr * vec) :=
  match d with
  | [] => [(k, v)]
  | (k', v') :: rest =>
      if decide (k' = k) then (k', v) :: rest
      else (k', v') :: dict_set k v rest
  end.

Section WordMatrix.

Variable lower : Py.pystr -> Py.pystr.
Variable nlp_vector : Py.pystr -> vec.

(** The comprehension of cell 32 again, with the order of the keys. *)
Definition words_items (ws : list Py.pystr) : list (Py.pystr * vec) :=
  foldl (fun d word =>
           if np_any (nlp_vector word) then
             dict_set (lower word) (nlp_vector word) d
           else d) [] ws.

(** Cell 42: [X = np.vstack(words.values())], the view read as the list of
    the values. *)
Definition word_matrix (ws : list Py.pystr) : result (list (list entry)) :=
  np_vstack (Arr1 <$> (words_items ws).*2).

(** Cell 44: the items are [list(words.keys())]. *)
Definition word_keys (ws : list Py.pystr) : list Py.pystr :=
  (words_items ws).*1.

Lemma dict_set_to_map k v d :
  (list_to_map (dict_set k v d) : gmap Py.pystr vec)
  = <[k := v]> (list_to_map d).
Proof.
  induction d as [|[k' v'] rest IH]; [done|].
  cbn [dict_set]. destruct (decide (k' = k)) as [->|Hk].
  - cbn [list_to_map foldr uncurry]. simpl. by rewrite insert_insert_eq.
  - change (list_to_map ((k', v') :: dict_set k v rest))
      with (<[k' := v']> (list_to_map (dict_set k v rest) : gmap Py.pystr vec)).
    rewrite IH. by apply insert_insert_ne.
Qed.

Lemma dict_set_keys k v d :
  (dict_set k v d).*1 = if decide (k ∈ d.*1) then d.*1 else d.*1 ++ [k].
Proof.
  induction d as [|[k' v'] rest IH]; [done|].
  cbn [dict_set]. destruct (decide (k' = k)) as [->|Hk]; csimpl.
  - rewrite decide_True; [done|by left].
  - rewrite IH. destruct (decide (k ∈ rest.*1)) as [Hin|Hnot].
    + rewrite decide_True; [done|by right].
    + rewrite decide_False; [done|].
      intros [?|?]%elem_of_cons; congruence.
Qed.

Lemma dict_set_NoDup k v d : NoDup d.*1 -> NoDup (dict_set k v d).*1.
Proof.
  intros Hd. rewrite dict_set_keys. case_decide as Hk; [done|].
  apply NoDup_app. split; [done|]. split; [|apply NoDup_singleton].
  intros x Hx ->%list_elem_of_singleton. done.
Qed.

Lemma words_items_spec ws :
  NoDup (words_items ws).*1
  /\ list_to_map (words_items ws) = words_from lower nlp_vector ws.
Proof.
  induction ws as [|word ws [Hnd Hmap]] using rev_ind.
  - split; [constructor|done].
  - unfold words_items in *. rewrite foldl_app. simpl.
    rewrite words_from_snoc. unfold words_step.
    destruct (np_any (nlp_vector word)); [|done].
    split; [by apply dict_set_NoDup|]. by rewrite dict_set_to_map, Hmap.
Qed.

(** X15. Cell 44 is aligned with cell 42: when the vectors have one
    dimension and the dictionary is not empty, the word matrix exists with
    one row per key, the keys are pairwise distinct, and the word printed for
    row [i] is the key whose vector in the dictionary is row [i]. *)
Theorem word_rows_match_keys (d : nat) (ws : list Py.pystr) :
  (forall word, length (nlp_vector word) = d) ->
  Exists (fun word => np_any (nlp_vector word) = true) ws ->
  exists X,
    word_matrix ws = Ok X
    /\ length X = length (word_keys ws)
    /\ NoDup (word_keys ws)
    /\ Forall2 (fun k row =>
           exists v, words_from lower nlp_vector ws !! k = Some v
                     /\ row = fin <$> v)
         (word_keys ws) X.
Proof.
  intros Hdim Hsome.
  destruct (words_items_spec ws) as [Hnd Hmap].
  assert (Hlook : forall k v, (k, v) ∈ words_items ws ->
            words_from lower nlp_vector ws !! k = Some v).
  { intros k v Hin. rewrite <- Hmap. by apply elem_of_list_to_map_1. }
  assert (Hvals : Forall (fun a => length (atleast_2d a) = d)
                    (Arr1 <$> (words_items ws).*2)).
  { rewrite Forall_fmap. apply Forall_forall.
    intros v ([k v'] & -> & Hin)%list_elem_of_fmap. simpl.
    rewrite length_fmap.
    apply Hlook, words_from_lookup in Hin as (word & _ & _ & -> & _).
    apply Hdim. }
  assert (Hne : Arr1 <$> (words_items ws).*2 <> []).
  { apply Exists_exists in Hsome as (word & Hin & Hany).
    destruct (words_from_key lower nlp_vector ws word Hin Hany) as [v Hv].
    rewrite <- Hmap in Hv. apply elem_of_list_to_map_2 in Hv.
    destruct (words_items ws); [by apply not_elem_of_nil in Hv|done]. }
  exists (atleast_2d <$> (Arr1 <$> (words_items ws).*2)).
  split; [by apply (np_vstack_defined d)|].
  unfold word_keys. split; [by rewrite !length_fmap|]. split; [done|].
  rewrite <- !list_fmap_compose. apply Forall2_fmap, Forall_Forall2_diag.
  apply Forall_forall. intros [k v] Hin. exists v. split; [by apply Hlook|done].
Qed.

End WordMatrix.

Lemma word_rows_match_keys_witness :
  exists X,
    word_matrix lower_ascii flat_nlp [Py.u "The"; Py.u "cat"; Py.u "the"]
    = Ok X
    /\ length X
       = length (word_keys lower_ascii flat_nlp
                   [Py.u "The"; Py.u "cat"; Py.u "the"])
    /\ NoDup (word_keys lower_ascii flat_nlp
                [Py.u "The"; Py.u "cat"; Py.u "the"])
    /\ Forall2 (fun k row =>
           exists v, words_from lower_ascii flat_nlp
                       [Py.u "The"; Py.u "cat"; Py.u "the"] !! k = Some v
                     /\ row = fin <$> v)
         (word_keys lower_ascii flat_nlp
            [Py.u "The"; Py.u "cat"; Py.u "the"]) X.
Proof.
  apply (word_rows_match_keys lower_ascii flat_nlp 2).
  - reflexivity.
  - apply Exists_cons_hd. reflexivity.
Defined.

Example word_keys_keep_first_position :
  word_keys lower_ascii flat_nlp [Py.u "The"; Py.u "cat"; Py.u "the"]
  = [Py.u "the"; Py.u "cat"].
Proof. reflexivity. Qed.

(** ** The heaviest terms again (cell 29) *)

Lemma print_top_terms_defined (cluster_centers : list vec)
    (terms : list Py.pystr) :
  length cluster_centers = true_k ->
  Forall (fun row => length row = length terms) cluster_centers ->
  exists out,
    print_top_terms cluster_centers terms = Ok out
    /\ Forall2 (fun i printed =>
           exists row,
             cluster_centers !! i = Some row
             /\ printed.1 = i
             /\ Forall2 (fun j t => terms !! j = Some t) (top_indices row)
                  printed.2)
         (seq 0 true_k) out.
Proof.
  intros Hk Hdim.
  assert (Hrow : forall i, i < true_k -> exists row,
            cluster_centers !! i = Some row /\ length row = length terms).
  { intros i Hi.
    destruct (lookup_lt_is_Some_2 cluster_centers i) as [row Hrow]; [lia|].
    exists row. split; [done|].
    by apply (proj1 (Forall_forall _ _) Hdim), list_elem_of_lookup_2 with i. }
  destruct (rmap_defined
              (fun i => rbind (cluster_terms terms
                                 (centroids_of cluster_centers) i)
                          (fun ts => Ok (i, ts))) (seq 0 true_k))
    as [out Hout].
  { apply Forall_forall. intros i Hi%elem_of_seq.
    destruct (Hrow i) as (row & Hi' & Hlen); [lia|].
    destruct (cluster_terms_defined cluster_centers terms i row Hi' Hlen)
      as (ts & -> & _). by eexists. }
  exists out. split; [done|]. apply rmap_Forall2 in Hout.
  apply Forall2_same_length_lookup. split; [by eapply Forall2_length|].
  intros n i printed Hi Hprinted.
  destruct (Forall2_lookup_l _ _ _ n i Hout Hi) as (printed' & Hp & Hrun).
  assert (printed' = printed) as -> by congruence.
  apply lookup_seq in Hi as [-> Hn]. simpl in *.
  destruct (Hrow n Hn) as (row & Hi' & Hlen).
  destruct (cluster_terms_defined cluster_centers terms n row Hi' Hlen)
    as (ts & Hts & Hterms).
  rewrite Hts in Hrun. simpl in Hrun. injection Hrun as <-.
  by exists row.
Qed.

Lemma lookups_NoDup {A} (terms : list A) (top : list nat) (ts : list A) :
  NoDup terms -> NoDup top ->
  Forall2 (fun j t => terms !! j = Some t) top ts ->
  NoDup ts.
Proof.
  intros Hterms Htop Hall. induction Hall as [|j t top ts Hj Hall IH].
  - constructor.
  - apply NoDup_cons in Htop as [Hnot Htop]. constructor; [|by apply IH].
    intros Hin.
    destruct (Forall2_elem_of_r _ _ _ t Hall Hin) as (j' & Hj' & Hlook).
    by rewrite (NoDup_lookup terms j j' t Hterms Hj Hlook) in Hnot.
Qed.

(** X16. With a vocabulary of pairwise distinct terms, the list printed for
    a cluster never repeats a term, and every term in it is a term of the
    vocabulary. *)
Theorem printed_terms_are_distinct
    (cluster_centers : list vec) (terms : list Py.pystr) :
  NoDup terms ->
  length cluster_centers = true_k ->
  Forall (fun row => length row = length terms) cluster_centers ->
  exists out,
    print_top_terms cluster_centers terms = Ok out
    /\ Forall (fun printed =>
         NoDup printed.2 /\ Forall (fun t => t ∈ terms) printed.2) out.
Proof.
  intros Hnd Hk Hdim.
  destruct (print_top_terms_defined cluster_centers terms Hk Hdim)
    as (out & Hout & Hall).
  exists out. split; [done|]. apply Forall_forall. intros printed Hin.
  destruct (Forall2_elem_of_r _ _ _ printed Hall Hin)
    as (i & _ & row & _ & _ & Hterms).
  destruct (top_indices_spec row) as (_ & Htop & _).
  split; [by apply (lookups_NoDup terms (top_indices row))|].
  apply Forall_forall. intros t Ht.
  destruct (Forall2_elem_of_r _ _ _ t Hterms Ht) as (j & _ & Hj).
  by apply list_elem_of_lookup_2 with j.
Qed.

Lemma printed_terms_are_distinct_witness :
  exists out,
    print_top_terms six_term_centers six_terms = Ok out
    /\ Forall (fun printed =>
         NoDup printed.2 /\ Forall (fun t => t ∈ six_terms) printed.2) out.
Proof.
  apply (printed_terms_are_distinct six_term_centers six_terms).
  - apply (bool_decide_unpack _). by vm_compute.
  - reflexivity.
  - unfold six_term_centers. simpl. repeat constructor.
Defined.

Section MoreCells.

Context {World CellV Features Soup : Type}.
Context {L : Libraries World CellV Features Soup}.

Local Abbreviation value := (value CellV Features Soup).
Local Abbreviation session := (session World CellV Features Soup).
Local Abbreviation Cell := (Cell World CellV Features Soup).

Lemma cbind_call_Ok {A B} (op : Lib World A) (k : A -> Cell B)
    (s : session) (w : World) (a : A) :
  op (world s) = (w, Ok a) ->
  cbind (call op) k s = k a (mkSession (vars s) (stdout s) w).
Proof. intros Hop. unfold cbind, call. by rewrite Hop. Qed.

(** The line cell 29 prints for one cluster. *)
Definition cluster_line (printed : nat * list Py.pystr) : value :=
  VClusterTerms printed.1 printed.2.

Lemma for_each_print_terms (f : nat -> result (list Py.pystr))
    (xs : list nat) (out : list (nat * list Py.pystr)) (s : session) :
  rmap (fun i => rbind (f i) (fun ts => Ok (i, ts))) xs = Ok out ->
  for_each xs (fun i => let* ts := lift (f i) in print (VClusterTerms i ts)) s
  = (mkSession (vars s) (stdout s ++ (cluster_line <$> out)) (world s), Ok tt).
Proof.
  revert out s. induction xs as [|i xs IH]; intros out s Hout.
  - simpl in Hout. injection Hout as <-. simpl. unfold cret.
    rewrite app_nil_r. by destruct s.
  - simpl in Hout. destruct (f i) as [ts|e] eqn:Hfi; simpl in Hout; [|done].
    destruct (rmap _ xs) as [out'|e] eqn:Hrest; simpl in Hout; [|done].
    injection Hout as <-. cbn [for_each].
    unfold cbind at 1 2, lift at 1, print at 1. rewrite Hfi.
    rewrite (IH out' _ eq_refl). cbn [vars stdout world fmap list_fmap].
    by rewrite <- app_assoc.
Qed.

(** X17. When the fit of cell 29 returns [true_k] centroids with one weight
    per vocabulary term, the cell ends normally and adds exactly [true_k]
    lines to the output and nothing else; line [i] is cluster [i] with
    [min num_words (number of terms)] terms, taken at distinct indices whose
    weights in centroid [i] are in non-increasing order and at least the
    weight of every other term (whichever way equal weights are ordered). *)
Theorem kmeans_top_terms_prints
    (X : Features) (vocabulary : list Py.pystr) (s : session)
    (w : World) (model : KMeansModel) :
  KMeans_fit true_k 1000 X (world s) = (w, Ok model) ->
  length (cluster_centers_ model) = true_k ->
  Forall (fun row => length row = length vocabulary) (cluster_centers_ model) ->
  exists out,
    length out = true_k
    /\ (kmeans_top_terms X vocabulary s).2 = Ok tt
    /\ stdout (kmeans_top_terms X vocabulary s).1
       = stdout s ++ (cluster_line <$> out)
    /\ world (kmeans_top_terms X vocabulary s).1 = w
    /\ Forall2 (fun i printed =>
           printed.1 = i
           /\ exists row top,
                cluster_centers_ model !! i = Some row
                /\ Forall2 (fun j t => vocabulary !! j = Some t) top printed.2
                /\ length top = Nat.min num_words (length vocabulary)
                /\ NoDup top
                /\ StronglySorted
                     (fun j k => (weight row k <= weight row j)%Q) top
                /\ (forall j k, j ∈ top -> k < length row -> k ∉ top ->
                      (weight row k <= weight row j)%Q))
         (seq 0 true_k) out.
Proof.
  intros Hfit Hk Hdim.
  destruct (print_top_terms_defined _ vocabulary Hk Hdim) as (out & Hout & Hall).
  exists out.
  split; [by rewrite <- (Forall2_length _ _ _ Hall), length_seq|].
  assert (Hrun : kmeans_top_terms X vocabulary s
                 = (mkSession
                      (<["terms" := VStrs vocabulary]>
                         (<["centroids" :=
                              VOrders (centroids_of (cluster_centers_ model))]>
                            (<["model" := VKMeans true_k 1000 (Some model)]>
                               (<["model" := VKMeans true_k 1000 None]>
                                  (<["num_words" := VInt num_words]>
                                     (<["true_k" := VInt true_k]> (vars s)))))))
                      (stdout s ++ (cluster_line <$> out)) w, Ok tt)).
  { unfold kmeans_top_terms. rewrite !cbind_assign.
    rewrite (cbind_call_Ok _ _ _ w model) by done.
    rewrite !cbind_assign.
    by rewrite (for_each_print_terms _ _ out _ Hout). }
  rewrite Hrun. cbn [fst snd stdout world].
  split; [done|]. split; [done|]. split; [done|].
  eapply Forall2_impl; [exact Hall|].
  intros i printed (row & Hrow & Hi & Hterms). split; [done|].
  destruct (top_indices_spec row) as (Htop & Hnodup & _ & Hsorted & Hmax).
  exists row, (top_indices row). split; [done|]. split; [done|].
  split; [|done]. rewrite Htop. f_equal.
  apply (proj1 (Forall_forall _ _) Hdim). by apply list_elem_of_lookup_2 with i.
Qed.

(** *** The sweep when a fit fails (cell 15) *)

(** X18. When the fits up to [k - 1] succeed and the fit with [k] clusters
    raises (more clusters than samples, say), the sweep ends with that
    exception and [scores] keeps the pairs gathered so far, one for each of
    2, ..., [k - 1]. *)
Theorem sweep_stops_at_failing_fit
    (X : Features) (s : session) (k : nat) (e : exn) :
  2 <= k < 20 ->
  Forall (fits_and_scores X) (seq 2 (k - 2)) ->
  (forall w, exists w', KMeans_fit k default_max_iter X w = (w', Raise e)) ->
  exists scores,
    (sweep X s).2 = Raise e
    /\ vars (sweep X s).1 !! "scores" = Some (VScores scores)
    /\ scores.*1 = seq 2 (k - 2)
    /\ Forall (fun entry => scored X entry.1 entry.2) scores.
Proof.
  intros Hk Hlib Hfail.
  set (s0 := mkSession (<["scores" := VScores []]>
                          (<["k_range" := VRange 2 20]> (vars s)))
               (stdout s) (world s)).
  destruct (sweep_loop_runs X (range 2 k) s0 [] Hlib)
    as (s1 & scores & Hrun & Hsc & Hks & Hall).
  { apply lookup_insert_eq. }
  destruct (Hfail (world s1)) as [w' Hfit].
  rewrite (sweep_fault_keeps_scores X s s1 k w' e Hk Hrun Hfit).
  exists scores. cbn [fst snd vars]. split; [done|].
  split; [by rewrite lookup_insert_ne|]. done.
Qed.

(** *** Fetching the page (cell 24) *)

(** X19. When the request and the parser return, whatever the HTTP status
    of the response, the cell binds [raw_text] to the paragraph texts joined
    with nothing between them and prints one line: the first 1000 characters
    of [raw_text], or all of it when it is shorter. *)
Theorem fetch_page_prints_prefix
    (s : session) (w1 w2 : World) (r : Response) (soup : Soup) :
  requests_get poznan_url (world s) = (w1, Ok r) ->
  BeautifulSoup (text r) "html" w1 = (w2, Ok soup) ->
  exists printed,
    (fetch_page s).2 = Ok tt
    /\ vars (fetch_page s).1 !! "raw_text"
       = Some (VStr (mjoin (paragraph_texts soup)))
    /\ stdout (fetch_page s).1 = stdout s ++ [VStr printed]
    /\ printed `prefix_of` mjoin (paragraph_texts soup)
    /\ length printed = Nat.min 1000 (length (mjoin (paragraph_texts soup))).
Proof.
  intros Hget Hsoup.
  exists (Py.slice_to 1000 (raw_text_of (paragraph_texts soup))).
  rewrite (fetch_page_ignores_status s w1 r Hget).
  rewrite (cbind_call_Ok _ _ _ w2 soup) by done.
  rewrite !cbind_assign. unfold print. cbn [fst snd vars stdout].
  split; [done|]. split; [by rewrite lookup_insert_eq|]. split; [done|].
  unfold Py.slice_to, Py.slice_bound, raw_text_of, Py.concat_str.
  change (1000 <? 0)%Z with false. change (Z.to_nat 1000) with 1000.
  cbv iota. split; [apply prefix_take|]. rewrite length_take. lia.
Qed.

End MoreCells.

Lemma kmeans_top_terms_prints_witness :
  exists out,
    length out = 10
    /\ (kmeans_top_terms six_term_centers six_terms fresh).2 = Ok tt
    /\ stdout (kmeans_top_terms six_term_centers six_terms fresh).1
       = [] ++ (cluster_line <$> out)
    /\ world (kmeans_top_terms six_term_centers six_terms fresh).1 = 1
    /\ Forall2 (fun i printed =>
           printed.1 = i
           /\ exists row top,
                take 10 six_term_centers !! i = Some row
                /\ Forall2 (fun j t => six_terms !! j = Some t) top printed.2
                /\ length top = 5
                /\ NoDup top
                /\ StronglySorted
                     (fun j k => (weight row k <= weight row j)%Q) top
                /\ (forall j k, j ∈ top -> k < length row -> k ∉ top ->
                      (weight row k <= weight row j)%Q))
         (seq 0 10) out.
Proof.
  apply (kmeans_top_terms_prints six_term_centers six_terms fresh 1
           (mkKMeans (take 10 six_term_centers)
              ((fun i => Z.of_nat (i mod 10)) <$> seq 0 10))).
  - reflexivity.
  - reflexivity.
  - unfold six_term_centers. simpl. repeat constructor.
Defined.

Definition five_points : list vec :=
  (fun i => [inject_Z (Z.of_nat i)]) <$> seq 0 5.

Lemma sweep_stops_at_failing_fit_witness :
  exists scores,
    (sweep five_points fresh).2
    = Raise (ValueError "n_samples should be >= n_clusters")
    /\ vars (sweep five_points fresh).1 !! "scores" = Some (VScores scores)
    /\ scores.*1 = [2; 3; 4; 5]
    /\ Forall (fun entry => scored five_points entry.1 entry.2) scores.
Proof.
  apply (sweep_stops_at_failing_fit five_points fresh 6
           (ValueError "n_samples should be >= n_clusters")).
  - lia.
  - apply Forall_forall. intros k Hk%elem_of_seq. split.
    + intros w. simpl. unfold toy_fit.
      assert ((length five_points <? k) = false) as ->.
      { apply Nat.ltb_ge. change (length five_points) with 5. simpl in Hk. lia. }
      by eexists _, _.
    + intros w w1 model _. by eexists _, _.
  - intros w. by exists w.
Defined.

(** A server that answers every request with an error page. *)
Definition error_page_libraries
    : Libraries nat Z (list vec) (list Py.pystr) := {|
  read_table := fun path w => (w, Raise (LibraryFault "FileNotFoundError"));
  requests_get := fun url w =>
    (S w, Ok (mkResponse 404 (Py.u "Not found. Try again later.")));
  BeautifulSoup := fun markup features w => (w, Ok [markup]);
  paragraph_texts := fun soup => soup;
  fit_transform := fun docs w => (w, Raise (ValueError "empty vocabulary"));
  todense := fun X => VFloats (mjoin X);
  get_stop_words := [];
  KMeans_fit := toy_fit;
  silhouette_score := toy_silhouette;
  plot_scores := fun ticks xs ys w => (w, Ok tt)
|}.

Lemma fetch_page_prints_prefix_witness :
  exists printed,
    (fetch_page (L := error_page_libraries) fresh).2 = Ok tt
    /\ vars (fetch_page (L := error_page_libraries) fresh).1 !! "raw_text"
       = Some (VStr (Py.u "Not found. Try again later."))
    /\ stdout (fetch_page (L := error_page_libraries) fresh).1
       = [] ++ [VStr printed]
    /\ printed `prefix_of` Py.u "Not found. Try again later."
    /\ length printed = 27.
Proof.
  apply (fetch_page_prints_prefix (L := error_page_libraries) fresh 1 1
           (mkResponse 404 (Py.u "Not found. Try again later."))
           [Py.u "Not found. Try again later."]).
  - reflexivity.
  - reflexivity.
Defined.

(** ** The labels of the dendrogram (cell 7) *)

(** A cell of the loaded table: text or a number. *)
Inductive cell :=
  | Str (s : Py.pystr)
  | Num (x : Q).

(** [df.<label>.values]: the cells of the column with that label. *)
Definition column {A} (label : string) (df : DataFrame A) : result (list A) :=
  match list_find (fun c => c = label) (columns df) with
  | Some (j, _) => rmap (fun record => getitem record j) (values df)
  | None => Raise (LibraryFault "AttributeError")
  end.

(** [a + s] and [s + b] for a cell and a [str]. *)
Definition cell_add_str (a : cell) (s : Py.pystr) : result Py.pystr :=
  match a with
  | Str t => Ok (t ++ s)
  | Num _ => Raise (LibraryFault "TypeError")
  end.

Definition str_add_cell (s : Py.pystr) (b : cell) : result Py.pystr :=
  match b with
  | Str t => Ok (s ++ t)
  | Num _ => Raise (LibraryFault "TypeError")
  end.

(** [labels = df.name.values + ' : ' + df.type.values] *)
Definition dendrogram_labels (df : DataFrame cell) : result (list Py.pystr) :=
  rbind (column "name" df) (fun names =>
  rbind (rmap (fun a => cell_add_str a (Py.u " : ")) names) (fun lefts =>
  rbind (column "type" df) (fun types =>
  rmap (fun p => str_add_cell p.1 p.2) (zip lefts types)))).

Definition zoo_rows : DataFrame cell :=
  mkDataFrame ["name"; "hair"; "eggs"; "type"]
    [ [Str (Py.u "bear"); Num 1; Num 0; Str (Py.u "mammal")];
      [Str (Py.u "carp"); Num 0; Num 1; Str (Py.u "fish")] ].

Example dendrogram_labels_zoo :
  dendrogram_labels zoo_rows = Ok [Py.u "bear : mammal"; Py.u "carp : fish"].
Proof. reflexivity. Qed.

Lemma column_at {A} (label : string) (df : DataFrame A) (j : nat) :
  NoDup (columns df) -> columns df !! j = Some label ->
  column label df = rmap (fun record => getitem record j) (values df).
Proof.
  intros Hnd Hj. unfold column.
  destruct (list_find_elem_of (fun c => c = label) (columns df) label)
    as [[i x] Hfind]; [by apply list_elem_of_lookup_2 with j|done|].
  rewrite Hfind. apply list_find_Some in Hfind as (Hi & -> & _).
  by rewrite (NoDup_lookup _ _ _ _ Hnd Hi Hj).
Qed.

Lemma labels_of_records (jn jt : nat) (records : list (list cell)) :
  Forall (fun record => exists n t,
            record !! jn = Some (Str n) /\ record !! jt = Some (Str t))
    records ->
  exists labels,
    rbind (rmap (fun record => getitem record jn) records) (fun names =>
    rbind (rmap (fun a => cell_add_str a (Py.u " : ")) names) (fun lefts =>
    rbind (rmap (fun record => getitem record jt) records) (fun types =>
    rmap (fun p => str_add_cell p.1 p.2) (zip lefts types))))
    = Ok labels
    /\ Forall2 (fun record label => exists n t,
           record !! jn = Some (Str n) /\ record !! jt = Some (Str t)
           /\ label = n ++ Py.u " : " ++ t)
         records labels.
Proof.
  induction 1 as [|record records (n & t & Hn & Ht) _ (labels & Hrun & IH)].
  - exists []. by split.
  - exists ((n ++ Py.u " : " ++ t) :: labels). split.
    + simpl. unfold getitem at 1 3. rewrite Hn, Ht. simpl.
      destruct (rmap (fun r => getitem r jn) records) as [names|]; [|done].
      simpl in *.
      destruct (rmap (fun a => cell_add_str a (Py.u " : ")) names)
        as [lefts|]; [|done].
      simpl in *.
      destruct (rmap (fun r => getitem r jt) records) as [types|]; [|done].
      simpl in *. rewrite Hrun. simpl. by rewrite <- app_assoc.
    + constructor; [|done]. by exists n, t.
Qed.

(** X20. For a table with distinct column labels among which [name] and
    [type], whose cells in those two columns are text, the labels of the
    dendrogram exist, there is one per row of the clustered matrix [ndf], and
    the label of a row is its name, [" : "], and its type. *)
Theorem dendrogram_labels_match_rows
    (df : DataFrame cell) (jn jt : nat) :
  NoDup (columns df) ->
  columns df !! jn = Some "name" ->
  columns df !! jt = Some "type" ->
  Forall (fun record => exists n t,
            record !! jn = Some (Str n) /\ record !! jt = Some (Str t))
    (values df) ->
  exists labels,
    dendrogram_labels df = Ok labels
    /\ length labels = length (ndf_of df)
    /\ Forall2 (fun record label => exists n t,
           record !! jn = Some (Str n) /\ record !! jt = Some (Str t)
           /\ label = n ++ Py.u " : " ++ t)
         (values df) labels.
Proof.
  intros Hnd Hn Ht Hcells.
  destruct (labels_of_records jn jt (values df) Hcells) as (labels & Hrun & Hall).
  exists labels. split; [|split; [|done]].
  - unfold dendrogram_labels.
    by rewrite (column_at "name" df jn Hnd Hn), (column_at "type" df jt Hnd Ht).
  - unfold ndf_of, to_numpy, iloc_columns. cbn [values].
    by rewrite length_fmap, (Forall2_length _ _ _ Hall).
Qed.

Lemma dendrogram_labels_match_rows_witness :
  exists labels,
    dendrogram_labels zoo_rows = Ok labels
    /\ length labels = length (ndf_of zoo_rows)
    /\ Forall2 (fun record label => exists n t,
           record !! 0 = Some (Str n) /\ record !! 3 = Some (Str t)
           /\ label = n ++ Py.u " : " ++ t)
         (values zoo_rows) labels.
Proof.
  apply (dendrogram_labels_match_rows zoo_rows 0 3).
  - apply (bool_decide_unpack _). by vm_compute.
  - reflexivity.
  - reflexivity.
  - repeat constructor; by eexists _, _.
Defined.

(** X21. A number in the [name] column (a missing name read as [nan], say)
    makes the concatenation raise a [TypeError]: no label is produced at
    all. *)
Theorem dendrogram_labels_need_text
    (df : DataFrame cell) (jn : nat) (record : list cell) (x : Q) :
  NoDup (columns df) ->
  columns df !! jn = Some "name" ->
  Forall (fun r => jn < length r) (values df) ->
  record ∈ values df -> record !! jn = Some (Num x) ->
  dendrogram_labels df = Raise (LibraryFault "TypeError").
Proof.
  intros Hnd Hn Hlen Hin Hx. unfold dendrogram_labels.
  rewrite (column_at "name" df jn Hnd Hn).
  destruct (rmap_defined (fun r => getitem r jn) (values df)) as [names Hnames].
  { eapply Forall_impl; [exact Hlen|]. intros r Hr. cbv beta in Hr.
    unfold getitem. destruct (lookup_lt_is_Some_2 r jn Hr) as [y ->].
    by exists y. }
  rewrite Hnames. simpl. apply rmap_Forall2 in Hnames.
  destruct (Forall2_elem_of_l _ _ _ record Hnames Hin) as (a & Ha & Hget).
  unfold getitem in Hget. rewrite Hx in Hget. injection Hget as <-.
  assert (rmap (fun a => cell_add_str a (Py.u " : ")) names
          = Raise (LibraryFault "TypeError")) as ->; [|done].
  clear Hnames. induction names as [|a names IH]; [by apply not_elem_of_nil in Ha|].
  simpl. destruct a as [s|y]; [|done]. simpl.
  apply elem_of_cons in Ha as [[=]|Ha]. by rewrite (IH Ha).
Qed.

Lemma dendrogram_labels_need_text_witness :
  dendrogram_labels
    (mkDataFrame ["name"; "hair"; "type"]
       [ [Str (Py.u "bear"); Num 1; Str (Py.u "mammal")];
         [Num 0; Num 0; Str (Py.u "fish")] ])
  = Raise (LibraryFault "TypeError").
Proof.
  apply (dendrogram_labels_need_text _ 0 [Num 0; Num 0; Str (Py.u "fish")] 0).
  - apply (bool_decide_unpack _). by vm_compute.
  - reflexivity.
  - repeat constructor.
  - right. by left.
  - reflexivity.
Defined.

(** ** The dictionary and the order of the set (cells 32, 42 and 44) *)

(** X5. Two iterations over the same words give dictionaries with the same
    entries (the same keys, each with the same vector), provided that words
    with the same lowercase form and a vector that is not all zero have the
    same vector. The order of the keys follows the iteration and may differ:
    the entries of one dictionary are a rearrangement of those of the
    other. *)
Theorem words_items_same_entries
    (lower : Py.pystr -> Py.pystr) (nlp_vector : Py.pystr -> vec)
    (ws ws' : list Py.pystr) :
  (forall w, w ∈ ws <-> w ∈ ws') ->
  (forall w1 w2, w1 ∈ ws -> w2 ∈ ws -> lower w1 = lower w2 ->
     np_any (nlp_vector w1) = true -> np_any (nlp_vector w2) = true ->
     nlp_vector w1 = nlp_vector w2) ->
  words_items lower nlp_vector ws ≡ₚ words_items lower nlp_vector ws'
  /\ word_keys lower nlp_vector ws ≡ₚ word_keys lower nlp_vector ws'.
Proof.
  intros Hsame Hcompat.
  destruct (words_items_spec lower nlp_vector ws) as [Hnd Hmap].
  destruct (words_items_spec lower nlp_vector ws') as [Hnd' Hmap'].
  assert (words_items lower nlp_vector ws ≡ₚ words_items lower nlp_vector ws')
    as Hperm.
  { apply (list_to_map_inj (M := gmap Py.pystr)); [done..|].
    rewrite Hmap, Hmap'. by apply words_independent_of_order. }
  split; [done|]. unfold word_keys. by rewrite Hperm.
Qed.

Lemma words_items_same_entries_witness :
  words_items lower_ascii flat_nlp [Py.u "The"; Py.u "cat"; Py.u "the"]
  ≡ₚ words_items lower_ascii flat_nlp [Py.u "cat"; Py.u "the"; Py.u "The"]
  /\ word_keys lower_ascii flat_nlp [Py.u "The"; Py.u "cat"; Py.u "the"]
     ≡ₚ word_keys lower_ascii flat_nlp [Py.u "cat"; Py.u "the"; Py.u "The"].
Proof.
  apply words_items_same_entries.
  - intros w. rewrite !elem_of_cons, !elem_of_nil. tauto.
  - reflexivity.
Defined.

(** The same words in another order: the same keys, in another order. *)
Example word_keys_follow_iteration :
  word_keys lower_ascii flat_nlp [Py.u "The"; Py.u "cat"; Py.u "the"]
  = [Py.u "the"; Py.u "cat"]
  /\ word_keys lower_ascii flat_nlp [Py.u "cat"; Py.u "the"; Py.u "The"]
     = [Py.u "cat"; Py.u "the"].
Proof. split; reflexivity. Qed.
